(** * gong-mcp: the signing client and the tool facade of [server.py]

    A shallow embedding of [src/gong_mcp/server.py] together with the parts
    of the Python standard library it calls ([str.encode], [base64],
    [hashlib.sha256], [hmac], [json.dumps], [datetime.isoformat]).

    Conventions.
    - A Python [str] is the list of its code points, a [bytes] object the
      list of its octets; both are lists of [N].
    - A Python [dict] is an association list in insertion order, which is
      the order [json.dumps] emits.
    - Code that may raise returns [result]: [Ok v] or [Raise e]. *)

From Stdlib Require Import String Ascii NArith ZArith Bool Lia List Sorted.
Import ListNotations.

Set Implicit Arguments.
Set Warnings "-register-all".

(** ** Strings and bytes *)

Definition codepoint := N.
Definition str := list codepoint.
Definition bytes := list N.

(** [py "GET"] is the Python literal ["GET"]. *)
Definition py (s : string) : str := map N_of_ascii (list_ascii_of_string s).

Definition str_eqb (a b : str) : bool :=
  if list_eq_dec N.eq_dec a b then true else false.

(** The one-character string of a line feed, Python's ['\n']. *)
Definition LF : str := [10%N].

(** [sep.join(parts)] *)
Fixpoint str_join (sep : str) (parts : list str) : str :=
  match parts with
  | [] => []
  | [p] => p
  | p :: rest => p ++ sep ++ str_join sep rest
  end.

(** [s * n] for a string [s] *)
Fixpoint str_repeat (s : str) (n : nat) : str :=
  match n with
  | O => []
  | S k => s ++ str_repeat s k
  end.

Section Digits.
Local Open Scope N_scope.

Definition digit_char (d : N) : codepoint :=
  if d <? 10 then 48 + d else 87 + d.

(** The digits of [n] in base [base], most significant first; [fuel]
    bounds the number of digits produced. *)
Fixpoint digits_aux (base : N) (fuel : nat) (n : N) (acc : str) : str :=
  match fuel with
  | O => acc
  | S k =>
      let acc' := digit_char (n mod base) :: acc in
      if n / base =? 0 then acc' else digits_aux base k (n / base) acc'
  end.

Definition digits (base n : N) : str :=
  digits_aux base (S (N.to_nat (N.log2 n))) n [].

(** ['%0<width>d' % n] and ['%0<width>x' % n] for [n >= 0] *)
Definition zfill (width : nat) (s : str) : str :=
  repeat 48 (width - length s) ++ s.

Definition fmt_d (width : nat) (n : N) : str := zfill width (digits 10 n).
Definition fmt_x (width : nat) (n : N) : str := zfill width (digits 16 n).

(** [str(z)] for a Python [int] *)
Definition str_of_int (z : Z) : str :=
  match z with
  | Z0 => py "0"
  | Zpos p => digits 10 (Npos p)
  | Zneg p => py "-" ++ digits 10 (Npos p)
  end.
End Digits.

(** ** Exceptions *)

(** The classes that matter to the code: [except Exception] catches every
    class below [Exception]; [KeyboardInterrupt], [SystemExit] and
    [GeneratorExit] derive from [BaseException] only. *)
Inductive exn_class : Type :=
| Exception_ (name : string)
| KeyboardInterrupt
| SystemExit
| GeneratorExit.

Record exn : Type := mk_exn {
  exn_cls : exn_class;
  exn_str : str          (* what [str(e)] returns *)
}.

Definition isinstance_Exception (e : exn) : bool :=
  match exn_cls e with
  | Exception_ _ => true
  | _ => false
  end.

Inductive result (A : Type) : Type :=
| Ok (v : A)
| Raise (e : exn).
Arguments Ok {A} v.
Arguments Raise {A} e.

Definition rbind {A B} (r : result A) (k : A -> result B) : result B :=
  match r with
  | Ok v => k v
  | Raise e => Raise e
  end.

Notation "x <- r ;; k" := (rbind r (fun x => k))
  (at level 61, r at next level, right associativity).

(** ** UTF-8 *)

Section Utf8.
Local Open Scope N_scope.

Definition is_surrogate (c : codepoint) : bool :=
  (0xD800 <=? c) && (c <=? 0xDFFF).

Definition utf8_char (c : codepoint) : bytes :=
  if c <? 0x80 then [c]
  else if c <? 0x800 then
    [N.lor 0xC0 (N.shiftr c 6); N.lor 0x80 (N.land c 0x3F)]
  else if c <? 0x10000 then
    [N.lor 0xE0 (N.shiftr c 12);
     N.lor 0x80 (N.land (N.shiftr c 6) 0x3F);
     N.lor 0x80 (N.land c 0x3F)]
  else
    [N.lor 0xF0 (N.shiftr c 18);
     N.lor 0x80 (N.land (N.shiftr c 12) 0x3F);
     N.lor 0x80 (N.land (N.shiftr c 6) 0x3F);
     N.lor 0x80 (N.land c 0x3F)].

(** Length of the run of surrogates at the head of [s]. *)
Fixpoint surrogate_run (s : str) : nat :=
  match s with
  | c :: rest => if is_surrogate c then S (surrogate_run rest) else O
  | [] => O
  end.

(** [str(e)] of the [UnicodeEncodeError] raised for the run of [n]
    surrogates that starts with [c] at index [pos]. *)
Definition encode_error (c : codepoint) (pos : nat) (n : nat) : exn :=
  let where_ :=
    match n with
    | 1%nat =>
        py "character '\u" ++ fmt_x 4 c ++ py "' in position "
           ++ digits 10 (N.of_nat pos)
    | _ =>
        py "characters in position " ++ digits 10 (N.of_nat pos)
           ++ py "-" ++ digits 10 (N.of_nat (pos + n - 1))
    end in
  mk_exn (Exception_ "UnicodeEncodeError")
         (py "'utf-8' codec can't encode " ++ where_
             ++ py ": surrogates not allowed").

(** [s.encode('utf-8')]: strict, so a surrogate raises. *)
Fixpoint encode_from (pos : nat) (s : str) : result bytes :=
  match s with
  | [] => Ok []
  | c :: rest =>
      if is_surrogate c then Raise (encode_error c pos (surrogate_run s))
      else bs <- encode_from (S pos) rest ;; Ok (utf8_char c ++ bs)
  end.

Definition encode_utf8 (s : str) : result bytes := encode_from 0 s.

Definition is_ascii (s : list N) : bool := forallb (fun c => c <? 0x80) s.

Definition no_surrogates (s : str) : bool :=
  forallb (fun c => negb (is_surrogate c)) s.
End Utf8.

Section Utf8Decode.
Local Open Scope N_scope.

Definition is_cont (b : N) : bool := (0x80 <=? b) && (b <=? 0xBF).

(** [str(e)] of the [UnicodeDecodeError] for the bytes at [start..stop-1],
    the first of which is [b]. *)
Definition decode_error (b : N) (start stop : nat) (reason : string) : exn :=
  let where_ :=
    if Nat.eqb stop (S start) then
      py "byte 0x" ++ fmt_x 2 b ++ py " in position "
         ++ digits 10 (N.of_nat start)
    else
      py "bytes in position " ++ digits 10 (N.of_nat start)
         ++ py "-" ++ digits 10 (N.of_nat (stop - 1))
  in
  mk_exn (Exception_ "UnicodeDecodeError")
         (py "'utf-8' codec can't decode " ++ where_ ++ py ": " ++ py reason).

Definition bad_start b pos := decode_error b pos (S pos) "invalid start byte".
Definition bad_cont b pos (n : nat) :=
  decode_error b pos (pos + n) "invalid continuation byte".
Definition short b pos (n : nat) :=
  decode_error b pos (pos + n) "unexpected end of data".

(** Second byte of a 3-byte and of a 4-byte sequence: a continuation byte
    that makes the sequence neither overlong, nor a surrogate, nor larger
    than U+10FFFF. *)
Definition ok2_of3 (b b2 : N) : bool :=
  is_cont b2 && negb (if b2 <? 0xA0 then b =? 0xE0 else b =? 0xED).
Definition ok2_of4 (b b2 : N) : bool :=
  is_cont b2 && negb (if b2 <? 0x90 then b =? 0xF0 else b =? 0xF4).

Definition low6 (b : N) : N := N.land b 0x3F.

(** [bs.decode('utf-8')], strict. *)
Fixpoint decode_from (pos : nat) (bs : bytes) : result str :=
  match bs with
  | [] => Ok []
  | b :: r1 =>
      if b <? 0x80 then
        s <- decode_from (S pos) r1 ;; Ok (b :: s)
      else if b <? 0xC2 then Raise (bad_start b pos)
      else if b <? 0xE0 then
        match r1 with
        | [] => Raise (short b pos 1)
        | b2 :: r2 =>
            if is_cont b2 then
              s <- decode_from (2 + pos) r2 ;;
              Ok (N.lor (N.shiftl (N.land b 0x1F) 6) (low6 b2) :: s)
            else Raise (bad_cont b pos 1)
        end
      else if b <? 0xF0 then
        match r1 with
        | [] => Raise (short b pos 1)
        | b2 :: r2 =>
            if ok2_of3 b b2 then
              match r2 with
              | [] => Raise (short b pos 2)
              | b3 :: r3 =>
                  if is_cont b3 then
                    s <- decode_from (3 + pos) r3 ;;
                    Ok (N.lor (N.shiftl (N.land b 0x0F) 12)
                          (N.lor (N.shiftl (low6 b2) 6) (low6 b3)) :: s)
                  else Raise (bad_cont b pos 2)
              end
            else Raise (bad_cont b pos 1)
        end
      else if b <? 0xF5 then
        match r1 with
        | [] => Raise (short b pos 1)
        | b2 :: r2 =>
            if ok2_of4 b b2 then
              match r2 with
              | [] => Raise (short b pos 2)
              | b3 :: r3 =>
                  if is_cont b3 then
                    match r3 with
                    | [] => Raise (short b pos 3)
                    | b4 :: r4 =>
                        if is_cont b4 then
                          s <- decode_from (4 + pos) r4 ;;
                          Ok (N.lor (N.shiftl (N.land b 0x07) 18)
                                (N.lor (N.shiftl (low6 b2) 12)
                                   (N.lor (N.shiftl (low6 b3) 6) (low6 b4)))
                                :: s)
                        else Raise (bad_cont b pos 3)
                    end
                  else Raise (bad_cont b pos 2)
              end
            else Raise (bad_cont b pos 1)
        end
      else Raise (bad_start b pos)
  end.

Definition decode_utf8 (bs : bytes) : result str := decode_from 0 bs.
End Utf8Decode.

(** ** base64.b64encode (RFC 4648, standard alphabet, with padding) *)

Section Base64.
Local Open Scope N_scope.

Definition b64_alphabet : bytes :=
  py "ABCDEFGHIJKLMNOPQRSTUVWXYZabcdefghijklmnopqrstuvwxyz0123456789+/".

Definition b64_char (i : N) : N := nth (N.to_nat i) b64_alphabet 0.
Definition b64_pad : N := 61.

Fixpoint b64encode (bs : bytes) : bytes :=
  match bs with
  | [] => []
  | [a] =>
      [b64_char (N.shiftr a 2);
       b64_char (N.shiftl (N.land a 3) 4);
       b64_pad; b64_pad]
  | [a; b] =>
      [b64_char (N.shiftr a 2);
       b64_char (N.lor (N.shiftl (N.land a 3) 4) (N.shiftr b 4));
       b64_char (N.shiftl (N.land b 15) 2);
       b64_pad]
  | a :: b :: c :: rest =>
      b64_char (N.shiftr a 2)
      :: b64_char (N.lor (N.shiftl (N.land a 3) 4) (N.shiftr b 4))
      :: b64_char (N.lor (N.shiftl (N.land b 15) 2) (N.shiftr c 6))
      :: b64_char (N.land c 63)
      :: b64encode rest
  end.
End Base64.

(** ** hashlib.sha256 (FIPS 180-4) and hmac (RFC 2104) *)

Module SHA256.
Local Open Scope N_scope.

Definition mask32 : N := 0xFFFFFFFF.
Definition add32 (a b : N) : N := N.land (a + b) mask32.
Definition not32 (a : N) : N := N.lxor a mask32.
Definition rotr (n x : N) : N :=
  N.lor (N.shiftr x n) (N.land (N.shiftl x (32 - n)) mask32).

Definition Ch x y z := N.lxor (N.land x y) (N.land (not32 x) z).
Definition Maj x y z :=
  N.lxor (N.lxor (N.land x y) (N.land x z)) (N.land y z).
Definition Sigma0 x := N.lxor (N.lxor (rotr 2 x) (rotr 13 x)) (rotr 22 x).
Definition Sigma1 x := N.lxor (N.lxor (rotr 6 x) (rotr 11 x)) (rotr 25 x).
Definition sigma0 x := N.lxor (N.lxor (rotr 7 x) (rotr 18 x)) (N.shiftr x 3).
Definition sigma1 x :=
  N.lxor (N.lxor (rotr 17 x) (rotr 19 x)) (N.shiftr x 10).

(** The first 64 primes. *)
Definition primes : list N :=
  [2; 3; 5; 7; 11; 13; 17; 19; 23; 29; 31; 37; 41; 43; 47; 53; 59; 61; 67;
   71; 73; 79; 83; 89; 97; 101; 103; 107; 109; 113; 127; 131; 137; 139; 149;
   151; 157; 163; 167; 173; 179; 181; 191; 193; 197; 199; 211; 223; 227;
   229; 233; 239; 241; 251; 257; 263; 269; 271; 277; 281; 283; 293; 307;
   311].

(** The largest [r] below [2 ^ bits] with [r ^ 3 <= n], one bit at a time. *)
Fixpoint cube_root (bits : nat) (n r : N) : N :=
  match bits with
  | O => r
  | S b =>
      let r' := r + N.shiftl 1 (N.of_nat b) in
      cube_root b n (if r' * r' * r' <=? n then r' else r)
  end.

(** The round constants: the first 32 bits of the fractional parts of the
    cube roots of the first 64 primes. *)
Definition K : list N :=
  Eval vm_compute in
    map (fun p => N.land (cube_root 36 (N.shiftl p 96) 0) mask32) primes.

Record state : Type := mk_state {
  ha : N; hb : N; hc : N; hd : N; he : N; hf : N; hg : N; hh : N
}.

(** The first 32 bits of the fractional part of a square root. *)
Definition sqrt_frac (p : N) : N := N.land (N.sqrt (N.shiftl p 64)) mask32.

(** The initial hash value, from the square roots of the first 8 primes. *)
Definition H0 : state :=
  Eval vm_compute in
    mk_state (sqrt_frac 2) (sqrt_frac 3) (sqrt_frac 5) (sqrt_frac 7)
             (sqrt_frac 11) (sqrt_frac 13) (sqrt_frac 17) (sqrt_frac 19).

(** Big-endian bytes of a word. *)
Definition be32 (w : N) : bytes :=
  [N.land (N.shiftr w 24) 0xFF; N.land (N.shiftr w 16) 0xFF;
   N.land (N.shiftr w 8) 0xFF; N.land w 0xFF].

Definition be64 (w : N) : bytes :=
  be32 (N.land (N.shiftr w 32) mask32) ++ be32 (N.land w mask32).

Fixpoint words_of (bs : bytes) : list N :=
  match bs with
  | a :: b :: c :: d :: rest =>
      N.lor (N.shiftl a 24) (N.lor (N.shiftl b 16) (N.lor (N.shiftl c 8) d))
      :: words_of rest
  | _ => []
  end.

(** The message followed by the bit 1, zeros up to 56 mod 64 bytes, and
    the bit length on 64 bits. *)
Definition pad (msg : bytes) : bytes :=
  let n := List.length msg in
  let zeros := ((119 - n mod 64) mod 64)%nat in
  msg ++ 0x80 :: repeat 0 zeros ++ be64 (8 * N.of_nat n).

(** [schedule w n] extends the 16 words of a block by [n] words; the
    schedule is kept newest first. *)
Fixpoint schedule (rev_w : list N) (n : nat) : list N :=
  match n with
  | O => rev_w
  | S k =>
      let w2 := nth 1 rev_w 0 in
      let w7 := nth 6 rev_w 0 in
      let w15 := nth 14 rev_w 0 in
      let w16 := nth 15 rev_w 0 in
      schedule
        (add32 (add32 (sigma1 w2) w7) (add32 (sigma0 w15) w16) :: rev_w) k
  end.

Definition round (s : state) (kw : N * N) : state :=
  let '(k, w) := kw in
  let t1 :=
    add32 (add32 (add32 (hh s) (Sigma1 (he s)))
                 (add32 (Ch (he s) (hf s) (hg s)) k)) w in
  let t2 := add32 (Sigma0 (ha s)) (Maj (ha s) (hb s) (hc s)) in
  mk_state (add32 t1 t2) (ha s) (hb s) (hc s)
           (add32 (hd s) t1) (he s) (hf s) (hg s).

Definition compress (s : state) (block : list N) : state :=
  let w := rev (schedule (rev block) 48) in
  let r := fold_left round (combine K w) s in
  mk_state (add32 (ha s) (ha r)) (add32 (hb s) (hb r))
           (add32 (hc s) (hc r)) (add32 (hd s) (hd r))
           (add32 (he s) (he r)) (add32 (hf s) (hf r))
           (add32 (hg s) (hg r)) (add32 (hh s) (hh r)).

(** Cut a list of words into blocks of 16. *)
Fixpoint blocks (fuel : nat) (ws : list N) : list (list N) :=
  match fuel, ws with
  | S k, _ :: _ => firstn 16 ws :: blocks k (skipn 16 ws)
  | _, _ => []
  end.

Definition digest_of (s : state) : bytes :=
  be32 (ha s) ++ be32 (hb s) ++ be32 (hc s) ++ be32 (hd s)
    ++ be32 (he s) ++ be32 (hf s) ++ be32 (hg s) ++ be32 (hh s).

(** [hashlib.sha256(msg).digest()] *)
Definition sha256 (msg : bytes) : bytes :=
  let ws := words_of (pad msg) in
  digest_of (fold_left compress (blocks (List.length ws) ws) H0).

Definition block_size : nat := 64.
End SHA256.

Module HMAC.
Import SHA256.
Local Open Scope N_scope.

(** [hmac.new(key, msg, hashlib.sha256).digest()] *)
Definition hmac_sha256 (key msg : bytes) : bytes :=
  let key0 :=
    if Nat.ltb block_size (List.length key) then sha256 key else key in
  let key1 := key0 ++ repeat 0 (block_size - List.length key0) in
  let ipad := map (N.lxor 0x36) key1 in
  let opad := map (N.lxor 0x5C) key1 in
  sha256 (opad ++ sha256 (ipad ++ msg)).
End HMAC.

(** [bs.hex()] *)
Definition hex (bs : bytes) : str := flat_map (fmt_x 2) bs.

(** ** JSON values and json.dumps *)

(** A Python [float] is kept as the text [float.__repr__] gives for it. *)
Inductive pyfloat : Type :=
| FNaN
| FInf
| FNegInf
| FFinite (repr : str).

(** The Python values that occur as request payloads and as decoded
    responses.  A [dict] has string keys and keeps insertion order. *)
Inductive value : Type :=
| VNone
| VBool (b : bool)
| VInt (z : Z)
| VFloat (f : pyfloat)
| VStr (s : str)
| VList (items : list value)
| VDict (items : list (str * value)).

Definition dict := list (str * value).

Module Json.
Local Open Scope N_scope.

(** [ESCAPE_DCT] and the [replace] function of
    [py_encode_basestring_ascii]: every character outside [' '..'~'], and
    the backslash and the double quote, is escaped. *)
Definition escape_char (c : codepoint) : str :=
  if c =? 92 then py "\\"
  else if c =? 34 then [92; 34]
  else if c =? 8 then py "\b"
  else if c =? 12 then py "\f"
  else if c =? 10 then py "\n"
  else if c =? 13 then py "\r"
  else if c =? 9 then py "\t"
  else if (32 <=? c) && (c <=? 126) then [c]
  else if c <? 0x10000 then py "\u" ++ fmt_x 4 c
  else
    let n := c - 0x10000 in
    let s1 := N.lor 0xD800 (N.land (N.shiftr n 10) 0x3FF) in
    let s2 := N.lor 0xDC00 (N.land n 0x3FF) in
    py "\u" ++ fmt_x 4 s1 ++ py "\u" ++ fmt_x 4 s2.

Definition encode_basestring_ascii (s : str) : str :=
  [34] ++ flat_map escape_char s ++ [34].

Definition floatstr (f : pyfloat) : str :=
  match f with
  | FNaN => py "NaN"
  | FInf => py "Infinity"
  | FNegInf => py "-Infinity"
  | FFinite repr => repr
  end.

Section Encoder.
(** The encoder's settings: [_indent] is the string used for one level
    when [indent] was given. *)
Variable _indent : option str.
Variables _item_separator _key_separator : str.

Definition newline_indent (level : nat) : str :=
  match _indent with
  | Some ind => LF ++ str_repeat ind level
  | None => []
  end.

Definition separator (level : nat) : str :=
  _item_separator ++ newline_indent level.

(** [_iterencode]; [level] is [_current_indent_level]. *)
Fixpoint _iterencode (level : nat) (o : value) : str :=
  match o with
  | VStr s => encode_basestring_ascii s
  | VNone => py "null"
  | VBool true => py "true"
  | VBool false => py "false"
  | VInt z => str_of_int z
  | VFloat f => floatstr f
  | VList [] => py "[]"
  | VList lst =>
      py "[" ++ newline_indent (S level)
        ++ str_join (separator (S level))
             (map (_iterencode (S level)) lst)
        ++ newline_indent level ++ py "]"
  | VDict [] => py "{}"
  | VDict dct =>
      py "{" ++ newline_indent (S level)
        ++ str_join (separator (S level))
             (map (fun kv =>
                     let '(key, v) := kv in
                     encode_basestring_ascii key ++ _key_separator
                       ++ _iterencode (S level) v) dct)
        ++ newline_indent level ++ py "}"
  end.
End Encoder.

(** [json.dumps(obj, indent=indent, separators=separators)] with the other
    arguments at their defaults.  The item separator defaults to [', '],
    or to [','] when [indent] is given; the key separator to [': ']. *)
Definition dumps (obj : value) (indent : option nat)
           (separators : option (str * str)) : str :=
  let '(item_separator, key_separator) :=
    match separators, indent with
    | Some seps, _ => seps
    | None, Some _ => (py ",", py ": ")
    | None, None => (py ", ", py ": ")
    end in
  _iterencode (option_map (str_repeat (py " ")) indent)
              item_separator key_separator 0 obj.
End Json.

(** ** datetime *)

Record datetime : Type := mk_datetime {
  year : N; month : N; day : N;
  hour : N; minute : N; second : N; microsecond : N
}.

(** [dt.isoformat()] of a naive datetime: the fraction is printed only
    when the microseconds are not zero, and there is no offset. *)
Definition isoformat (dt : datetime) : str :=
  fmt_d 4 (year dt) ++ py "-" ++ fmt_d 2 (month dt) ++ py "-"
    ++ fmt_d 2 (day dt) ++ py "T"
    ++ fmt_d 2 (hour dt) ++ py ":" ++ fmt_d 2 (minute dt) ++ py ":"
    ++ fmt_d 2 (second dt)
    ++ (if N.eqb (microsecond dt) 0 then []
        else py "." ++ fmt_d 6 (microsecond dt)).

(** ** Truthiness and dict assignment *)

(** [bool(s)] for an [Optional[str]] and for an [Optional[dict]]: [None]
    and the empty string or dict are falsy. *)
Definition truthy_str (s : option str) : bool :=
  match s with
  | None | Some [] => false
  | Some (_ :: _) => true
  end.

Definition truthy_dict (d : option dict) : bool :=
  match d with
  | None | Some [] => false
  | Some (_ :: _) => true
  end.

(** [a or b] on optional dicts *)
Definition or_else (a b : option dict) : option dict :=
  if truthy_dict a then a else b.

(** An optional string or dict as a Python value. *)
Definition value_of_str (s : option str) : value :=
  match s with
  | Some x => VStr x
  | None => VNone
  end.

Definition value_of_dict (d : option dict) : value :=
  match d with
  | Some x => VDict x
  | None => VNone
  end.

(** [d[key] = v] *)
Fixpoint dict_set {A} (d : list (str * A)) (key : str) (v : A)
  : list (str * A) :=
  match d with
  | [] => [(key, v)]
  | (k, x) :: rest =>
      if str_eqb k key then (k, v) :: rest else (k, x) :: dict_set rest key v
  end.

(** [d.get(key)] *)
Fixpoint dict_get {A} (d : list (str * A)) (key : str) : option A :=
  match d with
  | [] => None
  | (k, x) :: rest => if str_eqb k key then Some x else dict_get rest key
  end.

(** ** The HTTP collaborator and the clock *)

(** The keyword arguments of [httpx.Client.request]. *)
Record request : Type := mk_request {
  req_method : str;
  req_url : str;
  req_params : option dict;
  req_json : option dict;
  req_headers : list (str * str)
}.

(** What the code does with an [httpx.Response]: [raise_for_status()]
    returns or raises, [json()] returns the decoded body or raises. *)
Record response : Type := mk_response {
  raise_for_status : result unit;
  json : result value
}.

(** The outside world: what [datetime.utcnow()] returns at its n-th call
    and what [httpx] gives for the n-th request, a response or an
    exception. *)
Record world : Type := mk_world {
  utcnow : nat -> datetime;
  http : nat -> request -> result response
}.

(** The effects of the process so far: the number of clock readings and
    the requests handed to [httpx], oldest first. *)
Record effects : Type := mk_effects {
  tick : nat;
  sent : list request
}.

Definition M (A : Type) : Type := effects -> result A * effects.

Definition ret {A} (v : A) : M A := fun st => (Ok v, st).
Definition bind {A B} (m : M A) (k : A -> M B) : M B :=
  fun st =>
    match m st with
    | (Ok v, st') => k v st'
    | (Raise e, st') => (Raise e, st')
    end.
Definition lift {A} (r : result A) : M A := fun st => (r, st).

Notation "x <~ m ;; k" := (bind m (fun x => k))
  (at level 61, m at next level, right associativity).

(** [try: body / except Exception as e: handler(e)] *)
Definition try_except_Exception {A} (body : M A) (handler : exn -> M A)
  : M A :=
  fun st =>
    match body st with
    | (Ok v, st') => (Ok v, st')
    | (Raise e, st') =>
        if isinstance_Exception e then handler e st' else (Raise e, st')
    end.

(** ** server.py *)

Definition GONG_API_URL : str := py "https://api.gong.io/v2".

(** *** class GongClient *)

(** The [httpx.Client] held in [self.client] is the [http] component of
    the world. *)
Record GongClient : Type := mk_GongClient {
  access_key : str;
  access_secret : str
}.

(** [json.dumps(params) if params else ""] *)
Definition params_str (params : option dict) : str :=
  if truthy_dict params then Json.dumps (value_of_dict params) None None
  else [].

(** [f"{method}\n{path}\n{timestamp}\n{params_str}"] *)
Definition string_to_sign (method path timestamp : str)
           (params : option dict) : str :=
  method ++ LF ++ path ++ LF ++ timestamp ++ LF ++ params_str params.

Definition _generate_signature (self : GongClient)
           (method path timestamp : str) (params : option dict)
  : result str :=
  key <- encode_utf8 (access_secret self) ;;
  msg <- encode_utf8 (string_to_sign method path timestamp params) ;;
  let signature := HMAC.hmac_sha256 key msg in
  decode_utf8 (b64encode signature).

Section Process.
Variable w : world.

(** [datetime.utcnow()] *)
Definition now : M datetime :=
  fun st => (Ok (utcnow w (tick st)), mk_effects (S (tick st)) (sent st)).

(** [self.client.request(method=..., url=..., params=..., json=...,
    headers=...)] *)
Definition client_request (r : request) : M response :=
  fun st =>
    (http w (List.length (sent st)) r,
     mk_effects (tick st) (sent st ++ [r])).

Definition _request (self : GongClient) (method path : str)
           (params data : option dict) : M value :=
  dt <~ now ;;
  let timestamp := isoformat dt ++ py "Z" in
  let url := GONG_API_URL ++ path in
  let auth_string := access_key self ++ py ":" ++ access_secret self in
  auth_bytes <~ lift (encode_utf8 auth_string) ;;
  basic_auth <~ lift (decode_utf8 (b64encode auth_bytes)) ;;
  signature <~ lift (_generate_signature self method path timestamp
                       (or_else data params)) ;;
  let headers :=
    [(py "Content-Type", py "application/json");
     (py "Authorization", py "Basic " ++ basic_auth);
     (py "X-Gong-AccessKey", access_key self);
     (py "X-Gong-Timestamp", timestamp);
     (py "X-Gong-Signature", signature)] in
  resp <~ client_request (mk_request method url params data headers) ;;
  _ <~ lift (raise_for_status resp) ;;
  lift (json resp).

Definition list_calls (self : GongClient)
           (from_date_time to_date_time : option str) : M value :=
  let params : dict := [] in
  let params :=
    if truthy_str from_date_time
    then dict_set params (py "fromDateTime") (value_of_str from_date_time)
    else params in
  let params :=
    if truthy_str to_date_time
    then dict_set params (py "toDateTime") (value_of_str to_date_time)
    else params in
  _request self (py "GET") (py "/calls") (Some params) None.

Definition retrieve_transcripts (self : GongClient) (call_ids : list str)
  : M value :=
  let data : dict :=
    [(py "filter",
      VDict [(py "callIds", VList (map VStr call_ids));
             (py "includeEntities", VBool true);
             (py "includeInteractionsSummary", VBool true);
             (py "includeTrackers", VBool true)])] in
  _request self (py "POST") (py "/calls/transcript") None (Some data).

(** *** The tools registered with FastMCP *)

Section Tools.
(** The module-level [gong_client]. *)
Variable gong_client : GongClient.

Definition list_calls_tool (from_date_time to_date_time : option str)
  : M str :=
  try_except_Exception
    (response <~ list_calls gong_client from_date_time to_date_time ;;
     ret (Json.dumps response (Some 2%nat) None))
    (fun e =>
       ret (Json.dumps (VDict [(py "error", VStr (exn_str e))])
                       (Some 2%nat) None)).

Definition retrieve_transcripts_tool (call_ids : list str) : M str :=
  try_except_Exception
    (response <~ retrieve_transcripts gong_client call_ids ;;
     ret (Json.dumps response (Some 2%nat) None))
    (fun e =>
       ret (Json.dumps (VDict [(py "error", VStr (exn_str e))])
                       (Some 2%nat) None)).
End Tools.
End Process.

(** *** Module level: credentials, client and tool registration *)

Definition environ := list (str * str).

(** [os.getenv(key)] *)
Definition os_getenv (env : environ) (key : str) : option str :=
  dict_get env key.

(** [load_dotenv()]: the bindings of the [.env] file (none when there is no
    file), a later binding of a name replacing an earlier one, are added to
    the environment for the names it does not define yet. *)
Definition load_dotenv (dotenv : list (str * str)) (env : environ)
  : environ :=
  fold_left
    (fun e kv =>
       match dict_get e (fst kv) with
       | Some _ => e
       | None => e ++ [kv]
       end)
    (fold_left (fun d kv => dict_set d (fst kv) (snd kv)) dotenv [])
    env.

(** The text of an [Optional[str]] that is known to be a string. *)
Definition the_str (s : option str) : str :=
  match s with
  | Some x => x
  | None => []
  end.

Record FastMCP : Type := mk_FastMCP {
  mcp_name : str;
  mcp_version : str;
  mcp_tools : list str     (* the names registered with [@mcp.tool()] *)
}.

(** [@mcp.tool()] on the function called [name] *)
Definition tool (name : string) (mcp : FastMCP) : FastMCP :=
  mk_FastMCP (mcp_name mcp) (mcp_version mcp) (mcp_tools mcp ++ [py name]).

(** How the execution of the module body ends: [sys.exit] was called, or
    the end is reached with the client and the server object built. *)
Inductive module_state : Type :=
| Exited (status : Z) (stderr : list str)
| Loaded (gong_client : GongClient) (mcp : FastMCP).

Definition missing_credentials_message : str :=
  py "Error: GONG_ACCESS_KEY and GONG_ACCESS_SECRET environment variables are required".

Definition module_body (dotenv : list (str * str)) (env : environ)
  : module_state :=
  let env := load_dotenv dotenv env in
  let GONG_ACCESS_KEY := os_getenv env (py "GONG_ACCESS_KEY") in
  let GONG_ACCESS_SECRET := os_getenv env (py "GONG_ACCESS_SECRET") in
  if negb (truthy_str GONG_ACCESS_KEY) || negb (truthy_str GONG_ACCESS_SECRET)
  then Exited 1 [missing_credentials_message]
  else
    let gong_client :=
      mk_GongClient (the_str GONG_ACCESS_KEY) (the_str GONG_ACCESS_SECRET) in
    let mcp := mk_FastMCP (py "gong-mcp") (py "0.1.0") [] in
    let mcp := tool "list_calls" mcp in
    let mcp := tool "retrieve_transcripts" mcp in
    Loaded gong_client mcp.

(** A tool invocation received by the server. *)
Inductive invocation : Type :=
| call_list_calls (from_date_time to_date_time : option str)
| call_retrieve_transcripts (call_ids : list str).

Definition tool_name (i : invocation) : str :=
  match i with
  | call_list_calls _ _ => py "list_calls"
  | call_retrieve_transcripts _ => py "retrieve_transcripts"
  end.

Section Serving.
Variable w : world.

Definition call_tool (gong_client : GongClient) (i : invocation) : M str :=
  match i with
  | call_list_calls f t => list_calls_tool w gong_client f t
  | call_retrieve_transcripts ids => retrieve_transcripts_tool w gong_client ids
  end.

(** [mcp.run()]: the invocations are served one at a time, in order; the
    server answers those of the tools registered with it.  An exception
    that leaves a tool ends the run. *)
Fixpoint mcp_run (gong_client : GongClient) (mcp : FastMCP)
         (invocations : list invocation) : M (list str) :=
  match invocations with
  | [] => ret []
  | i :: rest =>
      if existsb (str_eqb (tool_name i)) (mcp_tools mcp) then
        out <~ call_tool gong_client i ;;
        outs <~ mcp_run gong_client mcp rest ;;
        ret (out :: outs)
      else mcp_run gong_client mcp rest
  end.

(** How [main()] ends: what it printed on stderr, whether
    [gong_client.close()] ran (the [finally] clause: always), and the
    exception that leaves it, if any. *)
Record main_outcome : Type := mk_main_outcome {
  main_stderr : list str;
  client_closed : bool;
  uncaught : option exn
}.

Definition main (gong_client : GongClient) (mcp : FastMCP)
           (invocations : list invocation)
  : effects -> main_outcome * effects :=
  fun st =>
    match mcp_run gong_client mcp invocations st with
    | (Ok _, st') => (mk_main_outcome [] true None, st')
    | (Raise e, st') =>
        match exn_cls e with
        | KeyboardInterrupt =>
            (mk_main_outcome [LF ++ py "Shutting down gracefully..."]
                             true None, st')
        | _ => (mk_main_outcome [] true (Some e), st')
        end
    end.

(** The whole process: the module body, then [main()] when the body did
    not exit. *)
Definition process (dotenv : list (str * str)) (env : environ)
           (invocations : list invocation) : module_state * effects :=
  let st0 := mk_effects 0 [] in
  match module_body dotenv env with
  | Exited status err => (Exited status err, st0)
  | Loaded gong_client mcp =>
      (Loaded gong_client mcp,
       snd (main gong_client mcp invocations st0))
  end.
End Serving.

(** * Vocabulary of the statements *)

(** The requests that a computation started in [st] and ended in [st']
    handed to [httpx]. *)
Definition issued (st st' : effects) : list request :=
  skipn (List.length (sent st)) (sent st').

(** The five headers of [_request]. *)
Definition gong_headers (self : GongClient)
           (basic_auth timestamp signature : str) : list (str * str) :=
  [(py "Content-Type", py "application/json");
   (py "Authorization", py "Basic " ++ basic_auth);
   (py "X-Gong-AccessKey", access_key self);
   (py "X-Gong-Timestamp", timestamp);
   (py "X-Gong-Signature", signature)].

(** [r] carries the headers of client [self] for the clock reading [dt]:
    Basic auth of [key:secret], the key, the timestamp of [dt], and the
    signature of [r]'s own method, path, that timestamp and body or
    parameters. *)
Definition signed_by (self : GongClient) (dt : datetime) (r : request)
  : Prop :=
  let timestamp := isoformat dt ++ py "Z" in
  exists path auth_bytes signature,
    req_url r = GONG_API_URL ++ path
    /\ encode_utf8 (access_key self ++ py ":" ++ access_secret self)
       = Ok auth_bytes
    /\ _generate_signature self (req_method r) path timestamp
         (or_else (req_json r) (req_params r)) = Ok signature
    /\ req_headers r
       = gong_headers self (b64encode auth_bytes) timestamp signature.

(** Credentials that [str.encode] accepts. *)
Definition encodable (self : GongClient) : Prop :=
  no_surrogates (access_key self) = true
  /\ no_surrogates (access_secret self) = true.

(** Every finite float of [v] has an ASCII [repr], as Python's have. *)
Fixpoint ascii_floats (v : value) : bool :=
  match v with
  | VFloat (FFinite repr) => is_ascii repr
  | VList items => forallb ascii_floats items
  | VDict items => forallb (fun kv => ascii_floats (snd kv)) items
  | _ => true
  end.

(** The log of [st] is signed by [self], each request with a clock reading
    of its own: the readings are listed in increasing order. *)
Definition log_signed (w : world) (self : GongClient) (st : effects) : Prop :=
  exists readings,
    Forall2 (fun j r => signed_by self (utcnow w j) r) readings (sent st)
    /\ StronglySorted lt readings
    /\ Forall (fun j => j < tick st)%nat readings.

(** The compact encoding the specification speaks of: no white space
    between the tokens, here for a payload whose keys are taken in the
    order of the dict. *)
Definition spec_compact_json (payload : dict) : str :=
  Json.dumps (VDict payload) None (Some (py ",", py ":")).

(** The query parameters of [listCalls] in the specification's words: a
    parameter is included if and only if it was provided. *)
Definition spec_list_calls_params (from_date_time to_date_time : option str)
  : dict :=
  match from_date_time with
  | Some s => [(py "fromDateTime", VStr s)]
  | None => []
  end ++
  match to_date_time with
  | Some s => [(py "toDateTime", VStr s)]
  | None => []
  end.

(** The body of [retrieveTranscripts]. *)
Definition transcript_body (call_ids : list str) : dict :=
  [(py "filter",
    VDict [(py "callIds", VList (map VStr call_ids));
           (py "includeEntities", VBool true);
           (py "includeInteractionsSummary", VBool true);
           (py "includeTrackers", VBool true)])].

(** [json.dumps({"error": message}, indent=2)] written out. *)
Definition pretty_error (message : str) : str :=
  py "{" ++ LF ++ py "  " ++ Json.encode_basestring_ascii (py "error")
     ++ py ": " ++ Json.encode_basestring_ascii message ++ LF ++ py "}".

(** No line feed in [s]. *)
Definition no_LF (s : str) : bool := forallb (fun c => negb (N.eqb c 10)) s.

(** Printable ASCII, from the space to the tilde. *)
Definition printable_char (c : codepoint) : bool :=
  N.leb 32 c && N.leb c 126.

Definition is_printable (s : str) : bool := forallb printable_char s.

(** Every finite float of [v] has a printable [repr]. *)
Fixpoint printable_floats (v : value) : bool :=
  match v with
  | VFloat (FFinite repr) => is_printable repr
  | VList items => forallb printable_floats items
  | VDict items => forallb (fun kv => printable_floats (snd kv)) items
  | _ => true
  end.

(** A character of a timestamp: a digit or one of [-], [.], [:], [T],
    [Z]. *)
Definition timestamp_char (c : codepoint) : bool :=
  (N.leb 48 c && N.leb c 57)
  || N.eqb c 45 || N.eqb c 46 || N.eqb c 58 || N.eqb c 84 || N.eqb c 90.

(** The ranges [datetime] keeps its fields in. *)
Definition valid_datetime (dt : datetime) : Prop :=
  (1 <= year dt <= 9999 /\ 1 <= month dt <= 12 /\ 1 <= day dt <= 31
   /\ hour dt <= 23 /\ minute dt <= 59 /\ second dt <= 59
   /\ microsecond dt <= 999999)%N.

(** A result that is a value or an exception derived from [Exception]. *)
Definition no_base_exception {A} (r : result A) : Prop :=
  match r with
  | Ok _ => True
  | Raise e => isinstance_Exception e = true
  end.

(** A world in which [httpx] and the response methods raise nothing but
    exceptions derived from [Exception]: no interrupt, no exit. *)
Definition exceptions_only (w : world) : Prop :=
  forall n r,
    no_base_exception (http w n r)
    /\ forall resp, http w n r = Ok resp ->
                    no_base_exception (raise_for_status resp)
                    /\ no_base_exception (json resp).

(** The invocation is of a tool registered with the server. *)
Definition registered (mcp : FastMCP) (i : invocation) : bool :=
  existsb (str_eqb (tool_name i)) (mcp_tools mcp).

(** A Unicode scalar value: at most U+10FFFF and not a surrogate. *)
Definition is_scalar (c : codepoint) : bool :=
  N.leb c 0x10FFFF && negb (is_surrogate c).

Definition scalars (s : str) : bool := forallb is_scalar s.

(** The keys of a dict, in its order. *)
Definition keys {A} (d : list (str * A)) : list str := map fst d.

(** The payload text of [retrieveTranscripts], as it is signed. *)
Definition transcript_text (call_ids : list str) : str :=
  py "{" ++ Json.encode_basestring_ascii (py "filter") ++ py ": {"
    ++ Json.encode_basestring_ascii (py "callIds") ++ py ": "
    ++ match call_ids with
       | [] => py "[]"
       | _ => py "["
                ++ str_join (py ", ")
                     (map Json.encode_basestring_ascii call_ids)
                ++ py "]"
       end
    ++ py ", " ++ Json.encode_basestring_ascii (py "includeEntities")
    ++ py ": true, "
    ++ Json.encode_basestring_ascii (py "includeInteractionsSummary")
    ++ py ": true, "
    ++ Json.encode_basestring_ascii (py "includeTrackers")
    ++ py ": true}}".

(** One member [key: value] of a JSON object, as [json.dumps] writes it
    for a string value. *)
Definition member_text (key value : str) : str :=
  Json.encode_basestring_ascii key ++ py ": "
    ++ Json.encode_basestring_ascii value.

(** The payload text of [listCalls], as it is signed. *)
Definition list_calls_text (from_date_time to_date_time : option str) : str :=
  match from_date_time, to_date_time with
  | Some (c :: f), Some (c' :: t) =>
      py "{" ++ member_text (py "fromDateTime") (c :: f) ++ py ", "
        ++ member_text (py "toDateTime") (c' :: t) ++ py "}"
  | Some (c :: f), _ =>
      py "{" ++ member_text (py "fromDateTime") (c :: f) ++ py "}"
  | _, Some (c' :: t) =>
      py "{" ++ member_text (py "toDateTime") (c' :: t) ++ py "}"
  | _, _ => []
  end.

(** ** Sample inputs *)

Module Sample.
Definition clock (n : nat) : datetime :=
  mk_datetime 2024 3 1 12 0 7 (N.of_nat n).

Definition calls : value := VDict [(py "calls", VList [])].

(** A remote end that answers every request with [{"calls": []}]. *)
Definition answering : world :=
  mk_world clock (fun _ _ => Ok (mk_response (Ok tt) (Ok calls))).

(** A remote end that answers 401: [raise_for_status] raises. *)
Definition unauthorized : exn :=
  mk_exn (Exception_ "HTTPStatusError") (py "Client error '401 Unauthorized'").
Definition refusing : world :=
  mk_world clock
           (fun _ _ => Ok (mk_response (Raise unauthorized) (Ok VNone))).

(** The user interrupts the process while [httpx] waits. *)
Definition interrupt : exn := mk_exn KeyboardInterrupt [].
Definition interrupted : world :=
  mk_world clock (fun _ _ => Raise interrupt).

Definition client : GongClient := mk_GongClient (py "key") (py "secret").
Definition start : effects := mk_effects 0 [].

Definition march : str := py "2024-03-01T00:00:00Z".
Definition from_march : dict := [(py "fromDateTime", VStr march)].
End Sample.

(** * Properties *)

(** ** Characters and digits *)

Lemma is_ascii_app (a b : list N) :
  is_ascii (a ++ b) = is_ascii a && is_ascii b.
Proof. apply forallb_app. Qed.

Lemma no_surrogates_app (a b : str) :
  no_surrogates (a ++ b) = no_surrogates a && no_surrogates b.
Proof. apply forallb_app. Qed.

Lemma ascii_not_surrogate (c : N) : (c <? 0x80)%N = true -> is_surrogate c = false.
Proof.
  intro H. apply N.ltb_lt in H. unfold is_surrogate.
  apply andb_false_iff. left. apply N.leb_gt. lia.
Qed.

Lemma is_ascii_no_surrogates (s : str) :
  is_ascii s = true -> no_surrogates s = true.
Proof.
  unfold is_ascii, no_surrogates. rewrite !forallb_forall.
  intros H c Hc. rewrite ascii_not_surrogate; auto.
Qed.

Lemma digit_char_ascii (d : N) : (d < 16)%N -> (digit_char d <? 0x80)%N = true.
Proof.
  intro H. unfold digit_char. apply N.ltb_lt.
  destruct (d <? 10)%N eqn:E; [apply N.ltb_lt in E|]; lia.
Qed.

Lemma digits_aux_ascii (base : N) (fuel : nat) :
  (0 < base <= 16)%N ->
  forall n acc, is_ascii acc = true ->
                is_ascii (digits_aux base fuel n acc) = true.
Proof.
  intro Hb. induction fuel as [|k IH]; intros n acc Hacc; simpl; auto.
  assert (Hd : is_ascii (digit_char (n mod base) :: acc) = true).
  { simpl. rewrite Hacc, digit_char_ascii; auto.
    assert (n mod base < base)%N by (apply N.mod_lt; lia). lia. }
  destruct (n / base =? 0)%N; auto.
Qed.

Lemma zfill_ascii (width : nat) (s : str) :
  is_ascii s = true -> is_ascii (zfill width s) = true.
Proof.
  intro H. unfold zfill. rewrite is_ascii_app, H, andb_true_r.
  induction (width - List.length s)%nat; simpl; auto.
Qed.

Lemma fmt_d_ascii (width : nat) (n : N) : is_ascii (fmt_d width n) = true.
Proof.
  apply zfill_ascii. apply digits_aux_ascii; [lia | reflexivity].
Qed.

Lemma fmt_x_ascii (width : nat) (n : N) : is_ascii (fmt_x width n) = true.
Proof.
  apply zfill_ascii. apply digits_aux_ascii; [lia | reflexivity].
Qed.

Lemma isoformat_ascii (dt : datetime) : is_ascii (isoformat dt) = true.
Proof.
  unfold isoformat.
  repeat (rewrite is_ascii_app; apply andb_true_iff; split;
          [first [apply fmt_d_ascii | reflexivity]|]).
  destruct (N.eqb (microsecond dt) 0); [reflexivity|].
  rewrite is_ascii_app, fmt_d_ascii. reflexivity.
Qed.

(** ** UTF-8 *)

Lemma encode_from_ok (s : str) :
  no_surrogates s = true ->
  forall pos, encode_from pos s = Ok (flat_map utf8_char s).
Proof.
  induction s as [|c s IH]; intros H pos; simpl in *; auto.
  apply andb_true_iff in H. destruct H as [Hc Hs].
  apply negb_true_iff in Hc. rewrite Hc, IH; auto.
Qed.

Lemma encode_from_raise (s : str) :
  no_surrogates s = false ->
  forall pos, exists e, encode_from pos s = Raise e.
Proof.
  induction s as [|c s IH]; intros H pos; simpl in *; [discriminate|].
  destruct (is_surrogate c) eqn:Hc; simpl in *; eauto.
  destruct (IH H (S pos)) as [e He]. rewrite He. simpl. eauto.
Qed.

Lemma utf8_ascii (s : str) : is_ascii s = true -> flat_map utf8_char s = s.
Proof.
  induction s as [|c s IH]; simpl; auto.
  intro H. apply andb_true_iff in H. destruct H as [Hc Hs].
  unfold utf8_char at 1. rewrite Hc, IH; auto.
Qed.

Lemma encode_utf8_ascii (s : str) : is_ascii s = true -> encode_utf8 s = Ok s.
Proof.
  intro H. unfold encode_utf8.
  rewrite encode_from_ok by (apply is_ascii_no_surrogates; auto).
  rewrite utf8_ascii; auto.
Qed.

Lemma decode_from_ascii (bs : bytes) :
  is_ascii bs = true -> forall pos, decode_from pos bs = Ok bs.
Proof.
  induction bs as [|b bs IH]; intros H pos; simpl in *; auto.
  apply andb_true_iff in H. destruct H as [Hb Hbs].
  rewrite Hb, IH; auto.
Qed.

(** ** Base64 *)

Lemma list_ind3 {A} (P : list A -> Prop) :
  P [] -> (forall a, P [a]) -> (forall a b, P [a; b]) ->
  (forall a b c l, P l -> P (a :: b :: c :: l)) ->
  forall l, P l.
Proof.
  intros H0 H1 H2 H3 l.
  assert (H : P l /\ (forall a, P (a :: l)) /\ (forall a b, P (a :: b :: l))).
  { induction l as [|x l [IH0 [IH1 IH2]]]; auto. }
  apply H.
Qed.

Lemma nth_forallb {A} (p : A -> bool) (l : list A) (d : A) :
  forallb p l = true -> p d = true -> forall n, p (nth n l d) = true.
Proof.
  intros Hl Hd. induction l as [|x l IH]; intros [|n]; simpl in *; auto.
  - apply andb_true_iff in Hl. apply Hl.
  - apply andb_true_iff in Hl. apply IH. apply Hl.
Qed.

Lemma b64_char_ascii (i : N) : (b64_char i <? 0x80)%N = true.
Proof.
  unfold b64_char.
  apply (nth_forallb (fun c => (c <? 0x80)%N)); reflexivity.
Qed.

Lemma b64encode_ascii (bs : bytes) : is_ascii (b64encode bs) = true.
Proof.
  induction bs as [|a|a b|a b c l IH] using list_ind3;
    cbn [b64encode is_ascii forallb];
    rewrite ?b64_char_ascii; auto.
Qed.

Lemma b64encode_length (bs : bytes) :
  List.length (b64encode bs) = (4 * ((List.length bs + 2) / 3))%nat.
Proof.
  induction bs as [|a|a b|a b c l IH] using list_ind3; try reflexivity.
  cbn [b64encode List.length]. rewrite IH.
  replace (S (S (S (List.length l))) + 2)%nat
    with (List.length l + 2 + 1 * 3)%nat by lia.
  rewrite Nat.div_add by lia. lia.
Qed.

(** [base64.b64encode(bs).decode('utf-8')] never raises. *)
Lemma decode_b64encode (bs : bytes) :
  decode_utf8 (b64encode bs) = Ok (b64encode bs).
Proof. apply decode_from_ascii, b64encode_ascii. Qed.

(** ** SHA-256 and HMAC *)

Lemma sha256_length (msg : bytes) : List.length (SHA256.sha256 msg) = 32%nat.
Proof. reflexivity. Qed.

Lemma hmac_sha256_length (key msg : bytes) :
  List.length (HMAC.hmac_sha256 key msg) = 32%nat.
Proof. apply sha256_length. Qed.

(** The vectors of FIPS 180-4 (one and two blocks) and of RFC 4231
    (case 2), and of RFC 4648 for base64. *)

Example sha256_abc :
  hex (SHA256.sha256 (py "abc"))
  = py "ba7816bf8f01cfea414140de5dae2223b00361a396177a9cb410ff61f20015ad".
Proof. vm_compute. reflexivity. Qed.

Example sha256_two_blocks :
  hex (SHA256.sha256
         (py "abcdbcdecdefdefgefghfghighijhijkijkljklmklmnlmnomnopnopq"))
  = py "248d6a61d20638b8e5c026930c3e6039a33ce45964ff2167f6ecedd419db06c1".
Proof. vm_compute. reflexivity. Qed.

Example hmac_sha256_rfc4231_2 :
  hex (HMAC.hmac_sha256 (py "Jefe") (py "what do ya want for nothing?"))
  = py "5bdcc146bf60754e6a042426089575c75a003f089d2739839dec58b964ec3843".
Proof. vm_compute. reflexivity. Qed.

Example b64encode_rfc4648 :
  b64encode (py "foobar") = py "Zm9vYmFy"
  /\ b64encode (py "fooba") = py "Zm9vYmE="
  /\ b64encode (py "foob") = py "Zm9vYg==".
Proof. vm_compute. auto. Qed.

(** ** JSON encoder *)

(** Induction on values that reaches the items of lists and dicts. *)
Lemma value_rect' (P : value -> Prop) :
  P VNone -> (forall b, P (VBool b)) -> (forall z, P (VInt z)) ->
  (forall f, P (VFloat f)) -> (forall s, P (VStr s)) ->
  (forall items, Forall P items -> P (VList items)) ->
  (forall items, Forall (fun kv => P (snd kv)) items -> P (VDict items)) ->
  forall v, P v.
Proof.
  intros HN HB HI HF HS HL HD.
  fix IH 1. intros [| b | z | f | s | items | items].
  - exact HN.
  - apply HB.
  - apply HI.
  - apply HF.
  - apply HS.
  - apply HL. induction items as [|x items IHl]; constructor.
    + apply IH.
    + exact IHl.
  - apply HD. induction items as [|[k x] items IHl]; constructor.
    + apply IH.
    + exact IHl.
Qed.

(** Without [indent] the nesting level plays no role. *)
Lemma _iterencode_level (isep ksep : str) (v : value) :
  forall l1 l2,
    Json._iterencode None isep ksep l1 v = Json._iterencode None isep ksep l2 v.
Proof.
  induction v as [| | | | |items IH|items IH] using value_rect';
    intros l1 l2; try reflexivity.
  - destruct items as [|x items]; [reflexivity|].
    cbn [Json._iterencode].
    rewrite (map_ext_in (Json._iterencode None isep ksep (S l1))
                        (Json._iterencode None isep ksep (S l2))).
    + reflexivity.
    + intros y Hy. rewrite Forall_forall in IH. apply IH; auto.
  - destruct items as [|x items]; [reflexivity|].
    cbn [Json._iterencode].
    erewrite map_ext_in; [reflexivity|].
    intros [k y] Hy. rewrite Forall_forall in IH.
    specialize (IH (k, y) Hy (S l1) (S l2)). cbn [snd] in IH.
    rewrite IH. reflexivity.
Qed.

(** ** Signature *)

Lemma string_to_sign_join (method path timestamp : str) (params : option dict) :
  string_to_sign method path timestamp params
  = str_join LF [method; path; timestamp; params_str params].
Proof. reflexivity. Qed.

Lemma _generate_signature_ok (self : GongClient) (method path timestamp : str)
      (params : option dict) (key msg : bytes) :
  encode_utf8 (access_secret self) = Ok key ->
  encode_utf8 (string_to_sign method path timestamp params) = Ok msg ->
  _generate_signature self method path timestamp params
  = Ok (b64encode (HMAC.hmac_sha256 key msg)).
Proof.
  intros Hk Hm. unfold _generate_signature. rewrite Hk, Hm. cbn [rbind].
  apply decode_b64encode.
Qed.

Lemma _generate_signature_inv (self : GongClient) (method path timestamp : str)
      (params : option dict) (signature : str) :
  _generate_signature self method path timestamp params = Ok signature ->
  exists key msg,
    encode_utf8 (access_secret self) = Ok key
    /\ encode_utf8 (string_to_sign method path timestamp params) = Ok msg
    /\ signature = b64encode (HMAC.hmac_sha256 key msg).
Proof.
  unfold _generate_signature.
  destruct (encode_utf8 (access_secret self)) as [key|e]; [|discriminate].
  destruct (encode_utf8 (string_to_sign _ _ _ _)) as [msg|e]; [|discriminate].
  cbn [rbind]. rewrite decode_b64encode. intro H.
  exists key, msg. repeat split. congruence.
Qed.

(** A signature is 44 characters of the base64 alphabet. *)
Lemma signature_length (self : GongClient) (method path timestamp : str)
      (params : option dict) (signature : str) :
  _generate_signature self method path timestamp params = Ok signature ->
  List.length signature = 44%nat /\ is_ascii signature = true.
Proof.
  intro H. apply _generate_signature_inv in H.
  destruct H as (key & msg & _ & _ & ->).
  rewrite b64encode_length, hmac_sha256_length, b64encode_ascii. auto.
Qed.

(** ** One request *)

Section OneRequest.
Variable w : world.

(** [_request] spelled out: it reads the clock, and then either raises
    before anything is sent, or sends one request and goes on with what
    [httpx] gives for it. *)
Lemma _request_unfold (self : GongClient) (method path : str)
      (params data : option dict) (st : effects) :
  let timestamp := isoformat (utcnow w (tick st)) ++ py "Z" in
  let st1 := mk_effects (S (tick st)) (sent st) in
  _request w self method path params data st
  = match encode_utf8 (access_key self ++ py ":" ++ access_secret self) with
    | Raise e => (Raise e, st1)
    | Ok auth_bytes =>
        match _generate_signature self method path timestamp
                (or_else data params) with
        | Raise e => (Raise e, st1)
        | Ok signature =>
            let r := mk_request method (GONG_API_URL ++ path) params data
                       (gong_headers self (b64encode auth_bytes)
                                     timestamp signature) in
            (resp <- http w (List.length (sent st)) r ;;
             _ <- raise_for_status resp ;;
             json resp,
             mk_effects (S (tick st)) (sent st ++ [r]))
        end
    end.
Proof.
  unfold _request, bind, now, lift, client_request. cbn [tick sent].
  destruct (encode_utf8 (access_key self ++ py ":" ++ access_secret self))
    as [auth_bytes|e]; [|reflexivity].
  rewrite decode_b64encode.
  destruct (_generate_signature _ _ _ _ _) as [signature|e]; [|reflexivity].
  cbn [tick sent].
  destruct (http w _ _) as [resp|e]; [|reflexivity].
  cbn [rbind].
  destruct (raise_for_status resp) as [[]|e]; reflexivity.
Qed.

Lemma issued_self (st : effects) : issued st st = [].
Proof. unfold issued. apply skipn_all. Qed.

Lemma issued_one (st : effects) (n : nat) (r : request) :
  issued st (mk_effects n (sent st ++ [r])) = [r].
Proof.
  unfold issued. cbn [sent]. rewrite skipn_app, skipn_all, Nat.sub_diag.
  reflexivity.
Qed.

(** What [_request] leaves in the log. *)
Lemma _request_issued (self : GongClient) (method path : str)
      (params data : option dict) (st : effects) :
  let st' := snd (_request w self method path params data st) in
  tick st' = S (tick st)
  /\ (sent st' = sent st
      \/ exists r,
          sent st' = sent st ++ [r]
          /\ req_method r = method
          /\ req_url r = GONG_API_URL ++ path
          /\ req_params r = params
          /\ req_json r = data
          /\ signed_by self (utcnow w (tick st)) r).
Proof.
  cbv zeta. rewrite _request_unfold.
  destruct (encode_utf8 _) as [auth_bytes|e] eqn:Ha; [|simpl; auto].
  destruct (_generate_signature _ _ _ _ _) as [signature|e] eqn:Hs;
    [|simpl; auto].
  cbn [snd tick sent]. split; [reflexivity|]. right.
  eexists. split; [reflexivity|]. cbn [req_method req_url req_params req_json].
  repeat split.
  exists path, auth_bytes, signature. cbn. auto.
Qed.
End OneRequest.

(** ** json.dumps writes ASCII only *)

Lemma str_join_ascii (sep : str) (parts : list str) :
  is_ascii sep = true -> Forall (fun p => is_ascii p = true) parts ->
  is_ascii (str_join sep parts) = true.
Proof.
  intros Hsep H. induction H as [|p parts Hp Hparts IH]; [reflexivity|].
  destruct parts as [|q parts]; [exact Hp|].
  change (is_ascii (p ++ sep ++ str_join sep (q :: parts)) = true).
  rewrite !is_ascii_app, Hp, Hsep, IH. reflexivity.
Qed.

Lemma str_repeat_ascii (s : str) (n : nat) :
  is_ascii s = true -> is_ascii (str_repeat s n) = true.
Proof.
  intro H. induction n as [|n IH]; [reflexivity|].
  simpl. rewrite is_ascii_app, H, IH. reflexivity.
Qed.

Lemma escape_char_ascii (c : codepoint) : is_ascii (Json.escape_char c) = true.
Proof.
  unfold Json.escape_char.
  repeat match goal with
         | |- context [if ?b then _ else _] => destruct b eqn:?
         end; try reflexivity.
  - apply andb_true_iff in Heqb6. destruct Heqb6 as [_ H].
    apply N.leb_le in H. simpl. rewrite andb_true_r. apply N.ltb_lt. lia.
  - rewrite is_ascii_app, fmt_x_ascii. reflexivity.
  - rewrite !is_ascii_app, !fmt_x_ascii. reflexivity.
Qed.

Lemma encode_basestring_ascii_ascii (s : str) :
  is_ascii (Json.encode_basestring_ascii s) = true.
Proof.
  unfold Json.encode_basestring_ascii. rewrite !is_ascii_app.
  replace (is_ascii (flat_map Json.escape_char s)) with true; [reflexivity|].
  symmetry. induction s as [|c s IH]; [reflexivity|].
  simpl. rewrite is_ascii_app, escape_char_ascii, IH. reflexivity.
Qed.

Lemma str_of_int_ascii (z : Z) : is_ascii (str_of_int z) = true.
Proof.
  destruct z; simpl; [reflexivity| |]; unfold digits;
    rewrite ?is_ascii_app; rewrite digits_aux_ascii; auto; lia.
Qed.

Section EncoderAscii.
Variable _indent : option str.
Variables isep ksep : str.
Hypothesis indent_ascii :
  match _indent with Some ind => is_ascii ind = true | None => True end.
Hypothesis isep_ascii : is_ascii isep = true.
Hypothesis ksep_ascii : is_ascii ksep = true.

Lemma newline_indent_ascii (level : nat) :
  is_ascii (Json.newline_indent _indent level) = true.
Proof.
  unfold Json.newline_indent. destruct _indent as [ind|]; [|reflexivity].
  rewrite is_ascii_app, str_repeat_ascii; auto.
Qed.

Lemma _iterencode_ascii (v : value) :
  ascii_floats v = true ->
  forall level, is_ascii (Json._iterencode _indent isep ksep level v) = true.
Proof.
  induction v as [|b|z|f|s|items IH|items IH] using value_rect';
    intros Hf level.
  - reflexivity.
  - destruct b; reflexivity.
  - apply str_of_int_ascii.
  - destruct f; try reflexivity. exact Hf.
  - apply encode_basestring_ascii_ascii.
  - destruct items as [|x items]; [reflexivity|].
    cbn [Json._iterencode].
    rewrite !is_ascii_app, !newline_indent_ascii.
    rewrite str_join_ascii; [reflexivity| |].
    + unfold Json.separator.
      rewrite is_ascii_app, isep_ascii, newline_indent_ascii. reflexivity.
    + apply Forall_map. rewrite Forall_forall in *. intros y Hy.
      apply IH; auto. cbn [ascii_floats] in Hf.
      rewrite forallb_forall in Hf. auto.
  - destruct items as [|x items]; [reflexivity|].
    cbn [Json._iterencode].
    rewrite !is_ascii_app, !newline_indent_ascii.
    rewrite str_join_ascii; [reflexivity| |].
    + unfold Json.separator.
      rewrite is_ascii_app, isep_ascii, newline_indent_ascii. reflexivity.
    + apply Forall_map. rewrite Forall_forall in *. intros [k y] Hy.
      rewrite !is_ascii_app, encode_basestring_ascii_ascii, ksep_ascii.
      cbn [ascii_floats] in Hf. rewrite forallb_forall in Hf.
      rewrite (IH (k, y) Hy); [reflexivity|]. apply (Hf (k, y) Hy).
Qed.
End EncoderAscii.

Lemma dumps_default_ascii (v : value) :
  ascii_floats v = true -> is_ascii (Json.dumps v None None) = true.
Proof.
  intro H. unfold Json.dumps. cbn [option_map].
  apply _iterencode_ascii; auto.
Qed.

Lemma params_str_ascii (params : option dict) :
  ascii_floats (value_of_dict params) = true ->
  is_ascii (params_str params) = true.
Proof.
  intro H. unfold params_str.
  destruct (truthy_dict params); [|reflexivity].
  apply dumps_default_ascii, H.
Qed.

(** ** When the signing succeeds *)

Lemma encode_utf8_ok (s : str) :
  no_surrogates s = true -> encode_utf8 s = Ok (flat_map utf8_char s).
Proof. intro H. apply encode_from_ok, H. Qed.

Lemma timestamp_ascii (dt : datetime) : is_ascii (isoformat dt ++ py "Z") = true.
Proof. rewrite is_ascii_app, isoformat_ascii. reflexivity. Qed.

Lemma auth_string_ok (self : GongClient) :
  encodable self ->
  no_surrogates (access_key self ++ py ":" ++ access_secret self) = true.
Proof.
  intros [Hk Hs]. rewrite !no_surrogates_app, Hk, Hs. reflexivity.
Qed.

Lemma _generate_signature_total (self : GongClient)
      (method path timestamp : str) (params : option dict) :
  no_surrogates (access_secret self) = true ->
  no_surrogates method = true -> no_surrogates path = true ->
  no_surrogates timestamp = true ->
  ascii_floats (value_of_dict params) = true ->
  exists signature,
    _generate_signature self method path timestamp params = Ok signature.
Proof.
  intros Hs Hm Hp Ht Hv. eexists.
  apply _generate_signature_ok; apply encode_utf8_ok; auto.
  unfold string_to_sign.
  rewrite !no_surrogates_app, Hm, Hp, Ht.
  rewrite (is_ascii_no_surrogates (params_str params))
    by (apply params_str_ascii, Hv).
  reflexivity.
Qed.

Section Sending.
Variable w : world.

(** With credentials that encode, [_request] sends exactly one request. *)
Lemma _request_sends (self : GongClient) (method path : str)
      (params data : option dict) (st : effects) :
  encodable self ->
  no_surrogates method = true -> no_surrogates path = true ->
  ascii_floats (value_of_dict (or_else data params)) = true ->
  let timestamp := isoformat (utcnow w (tick st)) ++ py "Z" in
  exists auth_bytes signature,
    encode_utf8 (access_key self ++ py ":" ++ access_secret self)
    = Ok auth_bytes
    /\ _generate_signature self method path timestamp (or_else data params)
       = Ok signature
    /\ issued st (snd (_request w self method path params data st))
       = [mk_request method (GONG_API_URL ++ path) params data
            (gong_headers self (b64encode auth_bytes) timestamp signature)].
Proof.
  intros Hc Hm Hp Hv timestamp.
  destruct (_generate_signature_total self method path timestamp
              (or_else data params)) as [signature Hsig]; auto.
  - apply Hc.
  - apply is_ascii_no_surrogates, timestamp_ascii.
  - exists (flat_map utf8_char
              (access_key self ++ py ":" ++ access_secret self)), signature.
    assert (Ha := encode_utf8_ok _ (auth_string_ok Hc)).
    repeat split; auto.
    rewrite _request_unfold. fold timestamp. rewrite Ha, Hsig.
    cbn [snd]. apply issued_one.
Qed.

(** With a lone surrogate in the credentials, [_request] raises before
    anything is sent. *)
Lemma _request_unencodable (self : GongClient) (method path : str)
      (params data : option dict) (st : effects) :
  no_surrogates (access_key self ++ py ":" ++ access_secret self) = false ->
  exists e,
    _request w self method path params data st
    = (Raise e, mk_effects (S (tick st)) (sent st)).
Proof.
  intro H. rewrite _request_unfold.
  destruct (encode_from_raise _ H 0) as [e He].
  unfold encode_utf8. rewrite He. eauto.
Qed.

(** *** The log stays signed *)

Lemma StronglySorted_snoc (js : list nat) (n : nat) :
  StronglySorted lt js -> Forall (fun j => j < n)%nat js ->
  StronglySorted lt (js ++ [n]).
Proof.
  induction 1 as [|j js Hs IH Hj]; intro Hn; simpl.
  - repeat constructor.
  - inversion Hn; subst. constructor; auto.
    apply Forall_app. split; auto.
Qed.

Lemma log_signed_tick (self : GongClient) (st : effects) :
  log_signed w self st ->
  log_signed w self (mk_effects (S (tick st)) (sent st)).
Proof.
  intros (js & H2 & Hs & Hlt). exists js. repeat split; auto.
  cbn [tick]. eapply Forall_impl; [|exact Hlt].
  intros j Hj. simpl in Hj. lia.
Qed.

Lemma _request_keeps_log_signed (self : GongClient) (method path : str)
      (params data : option dict) (st : effects) :
  log_signed w self st ->
  log_signed w self (snd (_request w self method path params data st)).
Proof.
  intro H.
  destruct (_request_issued w self method path params data st)
    as [Ht [Hsame | (r & Hr & _ & _ & _ & _ & Hsig)]].
  - destruct (log_signed_tick H) as (js & H2 & Hs & Hlt).
    exists js. rewrite Hsame, Ht. auto.
  - destruct H as (js & H2 & Hs & Hlt).
    exists (js ++ [tick st]). rewrite Hr, Ht. repeat split.
    + apply Forall2_app; auto.
    + apply StronglySorted_snoc; auto.
    + apply Forall_app. split.
      * eapply Forall_impl; [|exact Hlt]. intros j Hj. simpl in Hj. lia.
      * repeat constructor.
Qed.

Lemma try_except_ret_effects {A B} (body : M A) (f : A -> B)
      (h : exn -> B) (st : effects) :
  snd (try_except_Exception (x <~ body ;; ret (f x)) (fun e => ret (h e)) st)
  = snd (body st).
Proof.
  unfold try_except_Exception, bind, ret.
  destruct (body st) as [[v|e] st']; [reflexivity|].
  destruct (isinstance_Exception e); reflexivity.
Qed.

Lemma call_tool_keeps_log_signed (self : GongClient) (i : invocation)
      (st : effects) :
  log_signed w self st -> log_signed w self (snd (call_tool w self i st)).
Proof.
  intro H. destruct i as [f t|ids]; unfold call_tool,
    list_calls_tool, retrieve_transcripts_tool;
    rewrite try_except_ret_effects;
    apply _request_keeps_log_signed, H.
Qed.

Lemma mcp_run_keeps_log_signed (self : GongClient) (mcp : FastMCP)
      (invocations : list invocation) :
  forall st, log_signed w self st ->
             log_signed w self (snd (mcp_run w self mcp invocations st)).
Proof.
  induction invocations as [|i rest IH]; intros st H; [exact H|].
  cbn [mcp_run].
  destruct (existsb _ _); [|apply IH, H].
  unfold bind at 1.
  pose proof (@call_tool_keeps_log_signed self i st H) as H1.
  destruct (call_tool w self i st) as [[out|e] st1]; [|exact H1].
  cbn [snd] in H1. unfold bind, ret.
  specialize (IH st1 H1).
  destruct (mcp_run w self mcp rest st1) as [[outs|e] st2]; exact IH.
Qed.
End Sending.

(** * The claims *)

(** ** Serialization of the payload *)

(** C1, as stated, fails: for the payload [{"fromDateTime":
    "2024-03-01T00:00:00Z"}] the string that enters the string-to-sign is
    not the compact encoding; it has a space after the colon.  And for the
    empty mapping it is the empty string, not the encoding of the
    mapping. *)
Lemma params_str_not_compact :
  params_str (Some Sample.from_march) <> spec_compact_json Sample.from_march
  /\ In 32%N (params_str (Some Sample.from_march))
  /\ ~ In 32%N (spec_compact_json Sample.from_march)
  /\ params_str (Some []) <> spec_compact_json [].
Proof.
  split; [|split; [|split]].
  - intro H. apply (f_equal (@List.length _)) in H. vm_compute in H.
    discriminate H.
  - vm_compute. tauto.
  - vm_compute. intuition discriminate.
  - vm_compute. discriminate.
Qed.

(** C1, amended: the payload is serialized with the default separators of
    [json.dumps], [", "] between the items and [": "] after a key, the
    keys in the order of the dict; the empty string stands for no payload
    and for an empty mapping alike. *)
Theorem params_str_default_separators :
  (forall data params : option dict,
      or_else data params
      = match data with
        | Some (_ :: _) => data
        | _ => params
        end)
  /\ (forall params : option dict,
         params_str params
         = match params with
           | None | Some [] => []
           | Some items =>
               py "{"
                 ++ str_join (py ", ")
                      (map (fun kv =>
                              Json.encode_basestring_ascii (fst kv) ++ py ": "
                                ++ Json.dumps (snd kv) None None) items)
                 ++ py "}"
           end).
Proof.
  split; [intros [[|kv items]|] params; reflexivity|].
  intros [[|kv items]|]; try reflexivity.
  unfold params_str. cbn [truthy_dict value_of_dict].
  unfold Json.dumps. cbn [option_map Json._iterencode].
  unfold Json.separator, Json.newline_indent. rewrite !app_nil_r.
  cbn [app]. f_equal. f_equal. f_equal.
  apply map_ext. intros [k v]. cbn [fst snd]. f_equal. f_equal.
  apply _iterencode_level.
Qed.

(** ** The signature *)

(** C2: the signature is the base64 text of the HMAC-SHA256 digest, keyed
    by the access secret, of method, path, timestamp and payload string
    joined by line feeds in that order. *)
Theorem signature_is_b64_hmac_sha256 (self : GongClient)
        (method path timestamp : str) (params : option dict)
        (key msg : bytes) :
  encode_utf8 (access_secret self) = Ok key ->
  encode_utf8 (str_join LF [method; path; timestamp; params_str params])
  = Ok msg ->
  _generate_signature self method path timestamp params
  = Ok (b64encode (HMAC.hmac_sha256 key msg)).
Proof.
  intros Hk Hm. apply _generate_signature_ok; auto.
Qed.

Lemma signature_is_b64_hmac_sha256_witness :
  _generate_signature Sample.client (py "GET") (py "/calls") Sample.march
                      (Some Sample.from_march)
  = Ok (b64encode
          (HMAC.hmac_sha256
             (py "secret")
             (str_join LF [py "GET"; py "/calls"; Sample.march;
                           params_str (Some Sample.from_march)]))).
Proof.
  apply (@signature_is_b64_hmac_sha256 Sample.client (py "GET") (py "/calls")
           Sample.march (Some Sample.from_march)).
  - vm_compute. reflexivity.
  - vm_compute. reflexivity.
Defined.

(** C3: the signature is a function of the secret, the method, the path,
    the timestamp and the payload alone: two clients and two calls that
    agree on these five give the same signature. *)
Theorem signature_deterministic (self1 self2 : GongClient)
        (method1 method2 path1 path2 timestamp1 timestamp2 : str)
        (params1 params2 : option dict) :
  access_secret self1 = access_secret self2 ->
  method1 = method2 -> path1 = path2 -> timestamp1 = timestamp2 ->
  params1 = params2 ->
  _generate_signature self1 method1 path1 timestamp1 params1
  = _generate_signature self2 method2 path2 timestamp2 params2.
Proof.
  intros Hs -> -> -> ->. unfold _generate_signature. rewrite Hs. reflexivity.
Qed.

Lemma signature_deterministic_witness :
  _generate_signature (mk_GongClient (py "key") (py "secret"))
                      (py "GET") (py "/calls") Sample.march None
  = _generate_signature (mk_GongClient (py "other key") (py "secret"))
                        (py "GET") (py "/calls") Sample.march None.
Proof.
  apply signature_deterministic; reflexivity.
Defined.

(** ** The headers of every request *)

(** C4: in every run of the server, every request handed to the HTTP
    client carries the five headers built from the client's credentials,
    from a clock reading of its own, and from the signature of its own
    method, path, that timestamp and body or parameters. *)
Theorem every_request_signed (w : world) (self : GongClient) (mcp : FastMCP)
        (invocations : list invocation) :
  let st := snd (mcp_run w self mcp invocations (mk_effects 0 [])) in
  exists readings,
    Forall2 (fun j r => signed_by self (utcnow w j) r) readings (sent st)
    /\ StronglySorted lt readings.
Proof.
  destruct (@mcp_run_keeps_log_signed w self mcp invocations (mk_effects 0 []))
    as (js & H & Hs & _).
  - exists []. repeat constructor.
  - exists js. auto.
Qed.

(** ** listCalls *)

(** C5: [list_calls()] sends one request, [GET /calls] with an empty
    mapping of query parameters and no body, and the payload that enters
    the string-to-sign of its signature is the empty string. *)
Theorem list_calls_no_arguments (w : world) (self : GongClient)
        (st : effects) :
  encodable self ->
  let timestamp := isoformat (utcnow w (tick st)) ++ py "Z" in
  exists auth_bytes signature,
    issued st (snd (list_calls w self None None st))
    = [mk_request (py "GET") (GONG_API_URL ++ py "/calls") (Some []) None
         (gong_headers self (b64encode auth_bytes) timestamp signature)]
    /\ _generate_signature self (py "GET") (py "/calls") timestamp (Some [])
       = Ok signature
    /\ params_str (Some []) = []
    /\ string_to_sign (py "GET") (py "/calls") timestamp (Some [])
       = py "GET" ++ LF ++ py "/calls" ++ LF ++ timestamp ++ LF.
Proof.
  intros Hc timestamp.
  destruct (@_request_sends w self (py "GET") (py "/calls") (Some []) None st)
    as (auth_bytes & signature & _ & Hsig & Hsent); auto.
  exists auth_bytes, signature. repeat split; auto.
Qed.

Lemma list_calls_no_arguments_witness :
  exists auth_bytes signature,
    issued Sample.start
           (snd (list_calls Sample.answering Sample.client None None
                            Sample.start))
    = [mk_request (py "GET") (GONG_API_URL ++ py "/calls") (Some []) None
         (gong_headers Sample.client (b64encode auth_bytes)
                       (isoformat (Sample.clock 0) ++ py "Z") signature)]
    /\ _generate_signature Sample.client (py "GET") (py "/calls")
         (isoformat (Sample.clock 0) ++ py "Z") (Some [])
       = Ok signature
    /\ params_str (Some []) = []
    /\ string_to_sign (py "GET") (py "/calls")
         (isoformat (Sample.clock 0) ++ py "Z") (Some [])
       = py "GET" ++ LF ++ py "/calls" ++ LF
            ++ (isoformat (Sample.clock 0) ++ py "Z") ++ LF.
Proof.
  apply (@list_calls_no_arguments Sample.answering Sample.client Sample.start).
  split; reflexivity.
Defined.

(** C6, as stated, fails: [list_calls("")] is given [fromDateTime], yet the
    request it sends has no query parameter. *)
Lemma list_calls_empty_string_omitted :
  let sent_params :=
    map req_params
        (issued Sample.start
                (snd (list_calls Sample.answering Sample.client (Some []) None
                                 Sample.start))) in
  sent_params = [Some []]
  /\ sent_params <> [Some (spec_list_calls_params (Some []) None)].
Proof.
  split; vm_compute; [reflexivity | discriminate].
Qed.

(** The parameters [list_calls] builds. *)
Lemma list_calls_params_cases (from_date_time to_date_time : option str) :
  exists params : dict,
    (forall w self st,
        list_calls w self from_date_time to_date_time st
        = _request w self (py "GET") (py "/calls") (Some params) None st)
    /\ (forall v, dict_get params (py "fromDateTime") = Some v
                  <-> exists s, from_date_time = Some s /\ s <> []
                                /\ v = VStr s)
    /\ (forall v, dict_get params (py "toDateTime") = Some v
                  <-> exists s, to_date_time = Some s /\ s <> []
                                /\ v = VStr s)
    /\ (forall k v, In (k, v) params
                    -> k = py "fromDateTime" \/ k = py "toDateTime")
    /\ ascii_floats (VDict params) = true.
Proof.
  destruct from_date_time as [[|c s]|], to_date_time as [[|c' s']|];
    eexists; (split; [intros; unfold list_calls; cbn -[_request py]; reflexivity|]);
    vm_compute;
    (repeat split; try reflexivity;
     try (intros H; inversion H; subst; eexists; repeat split; discriminate);
     try (intros (s0 & H1 & H2 & H3); inversion H1; subst;
          first [reflexivity | congruence]);
     try (intros k v H; intuition congruence)).
Qed.

(** C6, amended: the query parameters of [GET /calls] hold [fromDateTime]
    and [toDateTime] exactly for the arguments that are given and are not
    the empty string, and nothing else; the signature is computed over
    these parameters. *)
Theorem list_calls_params (w : world) (self : GongClient)
        (from_date_time to_date_time : option str) (st : effects) :
  encodable self ->
  let timestamp := isoformat (utcnow w (tick st)) ++ py "Z" in
  exists (params : dict) auth_bytes signature,
    issued st (snd (list_calls w self from_date_time to_date_time st))
    = [mk_request (py "GET") (GONG_API_URL ++ py "/calls") (Some params) None
         (gong_headers self (b64encode auth_bytes) timestamp signature)]
    /\ _generate_signature self (py "GET") (py "/calls") timestamp
         (Some params) = Ok signature
    /\ (forall v, dict_get params (py "fromDateTime") = Some v
                  <-> exists s, from_date_time = Some s /\ s <> []
                                /\ v = VStr s)
    /\ (forall v, dict_get params (py "toDateTime") = Some v
                  <-> exists s, to_date_time = Some s /\ s <> []
                                /\ v = VStr s)
    /\ (forall k v, In (k, v) params
                    -> k = py "fromDateTime" \/ k = py "toDateTime").
Proof.
  intros Hc timestamp.
  destruct (list_calls_params_cases from_date_time to_date_time)
    as (params & Hcall & Hfrom & Hto & Hkeys & Hascii).
  destruct (@_request_sends w self (py "GET") (py "/calls") (Some params)
              None st)
    as (auth_bytes & signature & _ & Hsig & Hsent); auto.
  exists params, auth_bytes, signature. rewrite Hcall. repeat split; auto;
    try apply Hfrom; try apply Hto.
Qed.

Lemma list_calls_params_witness :
  exists (params : dict) auth_bytes signature,
    issued Sample.start
           (snd (list_calls Sample.answering Sample.client
                            (Some Sample.march) (Some []) Sample.start))
    = [mk_request (py "GET") (GONG_API_URL ++ py "/calls") (Some params) None
         (gong_headers Sample.client (b64encode auth_bytes)
                       (isoformat (Sample.clock 0) ++ py "Z") signature)]
    /\ _generate_signature Sample.client (py "GET") (py "/calls")
         (isoformat (Sample.clock 0) ++ py "Z") (Some params) = Ok signature
    /\ (forall v, dict_get params (py "fromDateTime") = Some v
                  <-> exists s, Some Sample.march = Some s /\ s <> []
                                /\ v = VStr s)
    /\ (forall v, dict_get params (py "toDateTime") = Some v
                  <-> exists s, Some [] = Some s /\ s <> [] /\ v = VStr s)
    /\ (forall k v, In (k, v) params
                    -> k = py "fromDateTime" \/ k = py "toDateTime").
Proof.
  apply (@list_calls_params Sample.answering Sample.client
           (Some Sample.march) (Some []) Sample.start).
  split; reflexivity.
Defined.

(** ** retrieveTranscripts *)

Lemma transcript_body_ascii (call_ids : list str) :
  ascii_floats (VDict (transcript_body call_ids)) = true.
Proof.
  cbn. rewrite !andb_true_r.
  induction call_ids as [|c ids IH]; [reflexivity|exact IH].
Qed.

(** C7: [retrieve_transcripts(call_ids)] sends one request,
    [POST /calls/transcript], without query parameters and with the body
    [{filter: {callIds, includeEntities, includeInteractionsSummary,
    includeTrackers}}] in which [callIds] is the given list and the three
    flags are true; the signature is computed over this body. *)
Theorem retrieve_transcripts_body (w : world) (self : GongClient)
        (call_ids : list str) (st : effects) :
  encodable self ->
  let timestamp := isoformat (utcnow w (tick st)) ++ py "Z" in
  exists (body filter : dict) auth_bytes signature,
    issued st (snd (retrieve_transcripts w self call_ids st))
    = [mk_request (py "POST") (GONG_API_URL ++ py "/calls/transcript")
         None (Some body)
         (gong_headers self (b64encode auth_bytes) timestamp signature)]
    /\ _generate_signature self (py "POST") (py "/calls/transcript")
         timestamp (Some body) = Ok signature
    /\ params_str (Some body) = Json.dumps (VDict body) None None
    /\ body = [(py "filter", VDict filter)]
    /\ dict_get filter (py "callIds") = Some (VList (map VStr call_ids))
    /\ dict_get filter (py "includeEntities") = Some (VBool true)
    /\ dict_get filter (py "includeInteractionsSummary") = Some (VBool true)
    /\ dict_get filter (py "includeTrackers") = Some (VBool true)
    /\ List.length filter = 4%nat.
Proof.
  intros Hc timestamp.
  destruct (@_request_sends w self (py "POST") (py "/calls/transcript") None
              (Some (transcript_body call_ids)) st)
    as (auth_bytes & signature & _ & Hsig & Hsent); auto.
  { apply transcript_body_ascii. }
  eexists. eexists. exists auth_bytes, signature.
  split; [exact Hsent|]. split; [exact Hsig|].
  repeat split; reflexivity.
Qed.

Lemma retrieve_transcripts_body_witness :
  exists (body filter : dict) auth_bytes signature,
    issued Sample.start
           (snd (retrieve_transcripts Sample.answering Sample.client
                                      [py "id1"; py "id2"] Sample.start))
    = [mk_request (py "POST") (GONG_API_URL ++ py "/calls/transcript")
         None (Some body)
         (gong_headers Sample.client (b64encode auth_bytes)
                       (isoformat (Sample.clock 0) ++ py "Z") signature)]
    /\ _generate_signature Sample.client (py "POST") (py "/calls/transcript")
         (isoformat (Sample.clock 0) ++ py "Z") (Some body) = Ok signature
    /\ params_str (Some body) = Json.dumps (VDict body) None None
    /\ body = [(py "filter", VDict filter)]
    /\ dict_get filter (py "callIds")
       = Some (VList (map VStr [py "id1"; py "id2"]))
    /\ dict_get filter (py "includeEntities") = Some (VBool true)
    /\ dict_get filter (py "includeInteractionsSummary") = Some (VBool true)
    /\ dict_get filter (py "includeTrackers") = Some (VBool true)
    /\ List.length filter = 4%nat.
Proof.
  apply (@retrieve_transcripts_body Sample.answering Sample.client
           [py "id1"; py "id2"] Sample.start).
  split; reflexivity.
Defined.

(** ** The tools *)

(** C8, as stated, fails: when the user interrupts the process during the
    HTTP call, the client call raises [KeyboardInterrupt] and the tool
    lets it through instead of returning text. *)
Lemma keyboard_interrupt_leaves_tool :
  fst (list_calls Sample.interrupted Sample.client None None Sample.start)
  = Raise Sample.interrupt
  /\ fst (list_calls_tool Sample.interrupted Sample.client None None
                          Sample.start)
     = Raise Sample.interrupt
  /\ fst (retrieve_transcripts_tool Sample.interrupted Sample.client []
                                    Sample.start)
     = Raise Sample.interrupt.
Proof.
  repeat split; vm_compute; reflexivity.
Qed.

Lemma dumps_error (message : str) :
  Json.dumps (VDict [(py "error", VStr message)]) (Some 2%nat) None
  = pretty_error message.
Proof.
  unfold pretty_error, Json.dumps, Json.encode_basestring_ascii.
  cbn [option_map Json._iterencode map str_join].
  unfold Json.newline_indent, Json.encode_basestring_ascii.
  cbn [str_repeat]. cbn [app LF py map list_ascii_of_string].
  repeat (rewrite <- !app_assoc; cbn [app]). reflexivity.
Qed.

(** A remote end that answers 401: the tool returns the error object. *)
Example unauthorized_as_text :
  fst (list_calls_tool Sample.refusing Sample.client None None Sample.start)
  = Ok (pretty_error (py "Client error '401 Unauthorized'")).
Proof. vm_compute. reflexivity. Qed.

(** C8, amended: each tool returns the response pretty-printed when the
    client call returns, and the pretty-printed object [{"error":
    message}] when it raises an exception of a class derived from
    [Exception]; any other exception leaves the tool. *)
Theorem tool_results (w : world) (gong_client : GongClient) (st : effects) :
  (forall from_date_time to_date_time,
      list_calls_tool w gong_client from_date_time to_date_time st
      = match list_calls w gong_client from_date_time to_date_time st with
        | (Ok response, st') => (Ok (Json.dumps response (Some 2%nat) None), st')
        | (Raise e, st') =>
            if isinstance_Exception e
            then (Ok (pretty_error (exn_str e)), st')
            else (Raise e, st')
        end)
  /\ (forall call_ids,
         retrieve_transcripts_tool w gong_client call_ids st
         = match retrieve_transcripts w gong_client call_ids st with
           | (Ok response, st') =>
               (Ok (Json.dumps response (Some 2%nat) None), st')
           | (Raise e, st') =>
               if isinstance_Exception e
               then (Ok (pretty_error (exn_str e)), st')
               else (Raise e, st')
           end).
Proof.
  split; intros;
    unfold list_calls_tool, retrieve_transcripts_tool,
      try_except_Exception, bind, ret;
    match goal with
    | |- context [match ?m st with _ => _ end] =>
        destruct (m st) as [[response|e] st']
    end; try reflexivity;
    destruct (isinstance_Exception e); try reflexivity;
    rewrite dumps_error; reflexivity.
Qed.

(** ** Start of the process *)

Lemma str_eqb_eq (a b : str) : str_eqb a b = true <-> a = b.
Proof.
  unfold str_eqb. destruct (list_eq_dec N.eq_dec a b); split; auto.
  discriminate.
Qed.

Lemma dict_get_set_other {A} (d : list (str * A)) (k k' : str) (v : A) :
  k' <> k -> dict_get (dict_set d k' v) k = dict_get d k.
Proof.
  intro Hne. induction d as [|[k0 x] d IH]; simpl.
  - destruct (str_eqb k' k) eqn:E; [apply str_eqb_eq in E; contradiction|].
    reflexivity.
  - destruct (str_eqb k0 k') eqn:E'; simpl.
    + apply str_eqb_eq in E'. subst k0.
      destruct (str_eqb k' k) eqn:E; [apply str_eqb_eq in E; contradiction|].
      reflexivity.
    + rewrite IH. reflexivity.
Qed.

Lemma dict_get_snoc_other {A} (d : list (str * A)) (k k' : str) (v : A) :
  k' <> k -> dict_get (d ++ [(k', v)]) k = dict_get d k.
Proof.
  intro Hne. induction d as [|[k0 x] d IH]; simpl.
  - destruct (str_eqb k' k) eqn:E; [apply str_eqb_eq in E; contradiction|].
    reflexivity.
  - rewrite IH. reflexivity.
Qed.

(** A name that neither the environment nor the [.env] file binds is not
    bound after [load_dotenv()]. *)
Lemma load_dotenv_absent (dotenv : list (str * str)) (env : environ)
      (key : str) :
  dict_get env key = None -> ~ In key (map fst dotenv) ->
  os_getenv (load_dotenv dotenv env) key = None.
Proof.
  intros Henv Hfile. unfold os_getenv, load_dotenv.
  assert (Hd : dict_get (fold_left (fun d kv => dict_set d (fst kv) (snd kv))
                                   dotenv []) key = None).
  { assert (G : forall acc : list (str * str),
               dict_get acc key = None ->
               dict_get (fold_left (fun d kv => dict_set d (fst kv) (snd kv))
                                   dotenv acc) key = None).
    { induction dotenv as [|[k v] rest IH]; intros acc Hacc; simpl; auto.
      apply IH.
      - intro Hin. apply Hfile. right. exact Hin.
      - rewrite dict_get_set_other; auto.
        intro E. apply Hfile. left. exact E. }
    apply G. reflexivity. }
  revert env Henv.
  induction (fold_left (fun d kv => dict_set d (fst kv) (snd kv)) dotenv [])
    as [|[k v] rest IH]; intros env Henv; simpl; auto.
  simpl in Hd. destruct (str_eqb k key) eqn:E; [discriminate|].
  apply IH; auto.
  destruct (dict_get env k); auto.
  rewrite dict_get_snoc_other; auto.
  intro Hk. subst k. rewrite (proj2 (str_eqb_eq key key) eq_refl) in E.
  discriminate.
Qed.

(** C9: when [GONG_ACCESS_KEY] or [GONG_ACCESS_SECRET] is not in the
    environment the module sees, the module body prints the diagnostic and
    exits with status 1; neither the client nor the server object exists,
    and whatever is invoked, no request is sent. *)
Theorem missing_credentials_exit (dotenv : list (str * str))
        (env : environ) :
  let env' := load_dotenv dotenv env in
  os_getenv env' (py "GONG_ACCESS_KEY") = None
  \/ os_getenv env' (py "GONG_ACCESS_SECRET") = None ->
  exists status,
    status <> 0%Z
    /\ module_body dotenv env = Exited status [missing_credentials_message]
    /\ (forall gong_client mcp, module_body dotenv env <> Loaded gong_client mcp)
    /\ (forall w invocations,
           sent (snd (process w dotenv env invocations)) = []).
Proof.
  intros env' H. exists 1%Z.
  assert (Hb : module_body dotenv env = Exited 1 [missing_credentials_message]).
  { unfold module_body. fold env'.
    destruct H as [H | H]; rewrite H; cbn [truthy_str negb orb];
      [|rewrite orb_true_r]; reflexivity. }
  split; [discriminate|]. split; [exact Hb|]. split.
  - intros c m. rewrite Hb. discriminate.
  - intros w invocations. unfold process. rewrite Hb. reflexivity.
Qed.

Lemma missing_credentials_exit_witness :
  exists status,
    status <> 0%Z
    /\ module_body [] [(py "GONG_ACCESS_KEY", py "key")]
       = Exited status [missing_credentials_message]
    /\ (forall gong_client mcp,
           module_body [] [(py "GONG_ACCESS_KEY", py "key")]
           <> Loaded gong_client mcp)
    /\ (forall w invocations,
           sent (snd (process w [] [(py "GONG_ACCESS_KEY", py "key")]
                              invocations)) = []).
Proof.
  apply (@missing_credentials_exit [] [(py "GONG_ACCESS_KEY", py "key")]).
  right. vm_compute. reflexivity.
Defined.

(** ** Falsy arguments *)

(** C10: an empty string given for [from_date_time] or [to_date_time] is
    the same as no argument, for the client and for the tool: same result,
    same request, same signature; and an empty mapping of parameters is
    signed as no payload is. *)
Theorem falsy_arguments_as_absent (w : world) (self : GongClient)
        (st : effects) :
  (forall to_date_time,
      list_calls w self (Some []) to_date_time st
      = list_calls w self None to_date_time st)
  /\ (forall from_date_time,
         list_calls w self from_date_time (Some []) st
         = list_calls w self from_date_time None st)
  /\ (forall to_date_time,
         list_calls_tool w self (Some []) to_date_time st
         = list_calls_tool w self None to_date_time st)
  /\ (forall from_date_time,
         list_calls_tool w self from_date_time (Some []) st
         = list_calls_tool w self from_date_time None st)
  /\ (forall method path timestamp,
         string_to_sign method path timestamp (Some [])
         = string_to_sign method path timestamp None
         /\ _generate_signature self method path timestamp (Some [])
            = _generate_signature self method path timestamp None)
  /\ (forall r,
         In r (issued st (snd (list_calls w self (Some []) None st))) ->
         req_params r = Some []
         /\ params_str (or_else (req_json r) (req_params r)) = []).
Proof.
  repeat split; try reflexivity.
  all: change (list_calls w self (Some []) None st)
         with (_request w self (py "GET") (py "/calls") (Some []) None st) in H;
       unfold issued in H;
       destruct (_request_issued w self (py "GET") (py "/calls") (Some [])
                                 None st)
         as [_ [Hs | (r' & Hr & _ & _ & Hp & Hj & _)]];
       [ rewrite Hs, skipn_all in H; destruct H
       | rewrite Hr, skipn_app, skipn_all, Nat.sub_diag in H;
         destruct H as [<- | []]; rewrite ?Hj, ?Hp; reflexivity ].
Qed.

(** * Further properties *)

(** ** The signature *)

Lemma encode_from_error (s : str) :
  no_surrogates s = false ->
  forall pos, exists e,
    encode_from pos s = Raise e
    /\ exn_cls e = Exception_ "UnicodeEncodeError".
Proof.
  induction s as [|c s IH]; intros H pos; simpl in *; [discriminate|].
  destruct (is_surrogate c) eqn:Hc; simpl in *.
  - eexists. split; reflexivity.
  - destruct (IH H (S pos)) as (e & He & Hcls). rewrite He. simpl. eauto.
Qed.

Lemma encode_utf8_Ok_no_surrogates (s : str) (bs : bytes) :
  encode_utf8 s = Ok bs -> no_surrogates s = true.
Proof.
  intro H. destruct (no_surrogates s) eqn:E; [reflexivity|].
  destruct (encode_from_error s E 0) as (e & He & _).
  unfold encode_utf8 in H. rewrite He in H. discriminate.
Qed.

(** X1: a signature is 44 characters of ASCII, the last one the padding
    sign [=]: the digest has 32 bytes. *)
Theorem signature_shape (self : GongClient) (method path timestamp : str)
        (params : option dict) (signature : str) :
  _generate_signature self method path timestamp params = Ok signature ->
  List.length signature = 44%nat
  /\ is_ascii signature = true
  /\ nth 43 signature 0%N = 61%N
  /\ nth 42 signature 0%N <> 61%N.
Proof.
  intro H. apply _generate_signature_inv in H.
  destruct H as (key & msg & _ & _ & ->).
  rewrite b64encode_length, hmac_sha256_length, b64encode_ascii.
  split; [reflexivity|]. split; [reflexivity|]. split.
  - unfold HMAC.hmac_sha256, SHA256.sha256.
    generalize (fold_left SHA256.compress); intro f.
    match goal with |- context [SHA256.digest_of ?x] => generalize x end.
    intro s. reflexivity.
  - unfold HMAC.hmac_sha256, SHA256.sha256.
    generalize (fold_left SHA256.compress); intro f.
    match goal with |- context [SHA256.digest_of ?x] => generalize x end.
    intro s. unfold SHA256.digest_of, SHA256.be32.
    cbn [app b64encode nth].
    pose proof (nth_forallb (fun c => negb (N.eqb c 61)) b64_alphabet 0%N
                            eq_refl eq_refl) as Hn.
    unfold b64_char. intro E.
    match type of E with
    | nth ?n _ _ = _ => specialize (Hn n); rewrite E in Hn
    end.
    discriminate Hn.
Qed.

Lemma signature_shape_witness :
  exists signature,
    _generate_signature Sample.client (py "GET") (py "/calls") Sample.march
                        None = Ok signature
    /\ List.length signature = 44%nat
    /\ is_ascii signature = true
    /\ nth 43 signature 0%N = 61%N
    /\ nth 42 signature 0%N <> 61%N.
Proof.
  eexists. split.
  - vm_compute. reflexivity.
  - apply (@signature_shape Sample.client (py "GET") (py "/calls")
             Sample.march None).
    vm_compute. reflexivity.
Defined.

(** X2: signing raises exactly when the secret, the method, the path or
    the timestamp holds a lone surrogate, and then with
    [UnicodeEncodeError]; the payload never makes it fail, since
    [json.dumps] escapes what is not ASCII. *)
Theorem signing_fails_on_surrogates_only (self : GongClient)
        (method path timestamp : str) (params : option dict) :
  ascii_floats (value_of_dict params) = true ->
  match _generate_signature self method path timestamp params with
  | Ok _ =>
      no_surrogates (access_secret self) = true
      /\ no_surrogates method = true
      /\ no_surrogates path = true
      /\ no_surrogates timestamp = true
  | Raise e =>
      exn_cls e = Exception_ "UnicodeEncodeError"
      /\ (no_surrogates (access_secret self) = false
          \/ no_surrogates method = false
          \/ no_surrogates path = false
          \/ no_surrogates timestamp = false)
  end.
Proof.
  intro Hv.
  assert (Hp : no_surrogates (params_str params) = true)
    by (apply is_ascii_no_surrogates, params_str_ascii, Hv).
  assert (Hsts : no_surrogates (string_to_sign method path timestamp params)
                 = no_surrogates method && no_surrogates path
                   && no_surrogates timestamp).
  { unfold string_to_sign. rewrite !no_surrogates_app, Hp.
    change (no_surrogates LF) with true.
    destruct (no_surrogates method), (no_surrogates path),
      (no_surrogates timestamp); reflexivity. }
  unfold _generate_signature.
  destruct (no_surrogates (access_secret self)) eqn:Hs.
  - rewrite (encode_utf8_ok _ Hs). cbn [rbind].
    destruct (no_surrogates (string_to_sign method path timestamp params))
      eqn:Hm.
    + rewrite (encode_utf8_ok _ Hm). cbn [rbind]. rewrite decode_b64encode.
      symmetry in Hsts. apply andb_true_iff in Hsts. destruct Hsts as [Hmp Ht].
      apply andb_true_iff in Hmp. tauto.
    + destruct (encode_from_error _ Hm 0) as (e & He & Hcls).
      unfold encode_utf8. rewrite He. cbn [rbind]. split; [exact Hcls|].
      symmetry in Hsts. apply andb_false_iff in Hsts.
      destruct Hsts as [Hmp | Ht]; [|tauto].
      apply andb_false_iff in Hmp. tauto.
  - destruct (encode_from_error _ Hs 0) as (e & He & Hcls).
    unfold encode_utf8. rewrite He. cbn [rbind]. tauto.
Qed.

Lemma signing_fails_on_surrogates_only_witness :
  match _generate_signature (mk_GongClient (py "key") [0xDC80%N])
                            (py "GET") (py "/calls") Sample.march
                            (Some Sample.from_march) with
  | Ok _ =>
      no_surrogates [0xDC80%N] = true
      /\ no_surrogates (py "GET") = true
      /\ no_surrogates (py "/calls") = true
      /\ no_surrogates Sample.march = true
  | Raise e =>
      exn_cls e = Exception_ "UnicodeEncodeError"
      /\ (no_surrogates [0xDC80%N] = false
          \/ no_surrogates (py "GET") = false
          \/ no_surrogates (py "/calls") = false
          \/ no_surrogates Sample.march = false)
  end.
Proof.
  apply (@signing_fails_on_surrogates_only
           (mk_GongClient (py "key") [0xDC80%N]) (py "GET") (py "/calls")
           Sample.march (Some Sample.from_march)).
  vm_compute. reflexivity.
Defined.

(** ** One call, at most one request *)

Section Calls.
Variable w : world.

Lemma _request_Ok_inv (self : GongClient) (method path : str)
      (params data : option dict) (st : effects) (v : value) :
  fst (_request w self method path params data st) = Ok v ->
  exists r resp,
    sent (snd (_request w self method path params data st)) = sent st ++ [r]
    /\ http w (List.length (sent st)) r = Ok resp
    /\ raise_for_status resp = Ok tt
    /\ json resp = Ok v.
Proof.
  rewrite _request_unfold.
  destruct (encode_utf8 _) as [auth_bytes|e]; [|discriminate].
  destruct (_generate_signature _ _ _ _ _) as [signature|e]; [|discriminate].
  cbn [fst snd sent].
  destruct (http w _ _) as [resp|e] eqn:Hh; [|discriminate].
  cbn [rbind].
  destruct (raise_for_status resp) as [[]|e] eqn:Hr; [|discriminate].
  intro Hj. eauto 10.
Qed.

(** X3: [_request] returns a value only when a request was sent, [httpx]
    gave a response for it, [raise_for_status()] let it through, and the
    value is the decoded body; and when [raise_for_status()] raises, that
    exception is the outcome, whatever the body holds. *)
Theorem request_returns_successful_body_only (self : GongClient)
        (method path : str) (params data : option dict) (st : effects) :
  match _request w self method path params data st with
  | (Ok v, st') =>
      exists r resp,
        issued st st' = [r]
        /\ http w (List.length (sent st)) r = Ok resp
        /\ raise_for_status resp = Ok tt
        /\ json resp = Ok v
  | (Raise e, st') =>
      forall r resp,
        issued st st' = [r] ->
        http w (List.length (sent st)) r = Ok resp ->
        raise_for_status resp = Raise e
        \/ (raise_for_status resp = Ok tt /\ json resp = Raise e)
  end.
Proof.
  rewrite _request_unfold.
  destruct (encode_utf8 _) as [auth_bytes|e].
  2:{ intros r resp H. unfold issued in H. cbn [sent] in H.
      rewrite skipn_all in H. discriminate. }
  destruct (_generate_signature _ _ _ _ _) as [signature|e].
  2:{ intros r resp H. unfold issued in H. cbn [sent] in H.
      rewrite skipn_all in H. discriminate. }
  cbv zeta.
  destruct (http w _ _) as [resp|e] eqn:Hh; cbn [rbind].
  - destruct (raise_for_status resp) as [[]|e] eqn:Hr; cbn [rbind].
    + destruct (json resp) as [v|e] eqn:Hj; rewrite issued_one.
      * eauto 10.
      * intros r resp' Hi Hh'.
        assert (resp' = resp) by congruence. subst resp'. auto.
    + rewrite issued_one. intros r resp' Hi Hh'.
      assert (resp' = resp) by congruence. subst resp'. auto.
  - rewrite issued_one. intros r resp Hi Hh'. congruence.
Qed.

Lemma call_tool_effects (self : GongClient) (i : invocation) (st : effects) :
  let st' := snd (call_tool w self i st) in
  tick st' = S (tick st)
  /\ (sent st' = sent st \/ exists r, sent st' = sent st ++ [r]).
Proof.
  destruct i as [f t|ids]; unfold call_tool, list_calls_tool,
    retrieve_transcripts_tool; cbv zeta; rewrite try_except_ret_effects;
  match goal with
  | |- context [snd (?m st)] =>
      match m with
      | list_calls _ _ _ _ =>
          destruct (list_calls_params_cases f t) as (params & Hc & _);
          rewrite Hc
      | _ => unfold retrieve_transcripts
      end
  end;
  match goal with
  | |- context [_request w self ?m ?p ?ps ?d st] =>
      destruct (_request_issued w self m p ps d st)
        as [Ht [Hs | (r & Hr & _)]]
  end; split; eauto.
Qed.

(** X4: a tool invocation reads the clock once and hands at most one
    request to [httpx], whether it succeeds or fails: nothing is retried,
    and the log of requests only grows. *)
Theorem tool_sends_at_most_one_request (self : GongClient) (i : invocation)
        (st : effects) :
  let st' := snd (call_tool w self i st) in
  tick st' = S (tick st)
  /\ (issued st st' = [] /\ sent st' = sent st
      \/ exists r, issued st st' = [r] /\ sent st' = sent st ++ [r]).
Proof.
  destruct (call_tool_effects self i st) as [Ht [Hs | [r Hr]]];
    cbv zeta; split; auto.
  - left. unfold issued. rewrite Hs, skipn_all. auto.
  - right. exists r. unfold issued.
    rewrite Hr, skipn_app, skipn_all, Nat.sub_diag. auto.
Qed.

Lemma mcp_run_cons_effects (self : GongClient) (mcp : FastMCP)
      (i : invocation) (rest : list invocation) (st : effects) :
  snd (mcp_run w self mcp (i :: rest) st)
  = if registered mcp i then
      match call_tool w self i st with
      | (Ok _, st1) => snd (mcp_run w self mcp rest st1)
      | (Raise _, st1) => st1
      end
    else snd (mcp_run w self mcp rest st).
Proof.
  cbn [mcp_run]. fold (registered mcp i).
  destruct (registered mcp i); [|reflexivity].
  unfold bind at 1. destruct (call_tool w self i st) as [[out|e] st1];
    [|reflexivity].
  unfold bind, ret.
  destruct (mcp_run w self mcp rest st1) as [[outs|e] st2]; reflexivity.
Qed.

(** X5: over a whole run the server sends at most one request and reads
    the clock at most once per invocation, keeps what it had sent, and
    reads the clock at least once per request. *)
Theorem run_sends_at_most_one_request_each (self : GongClient)
        (mcp : FastMCP) (invocations : list invocation) (st : effects) :
  let st' := snd (mcp_run w self mcp invocations st) in
  exists new,
    sent st' = sent st ++ new
    /\ (List.length new <= tick st' - tick st)%nat
    /\ (tick st' - tick st
        <= List.length (filter (registered mcp) invocations))%nat
    /\ (tick st <= tick st')%nat.
Proof.
  revert st. induction invocations as [|i rest IH]; intro st; cbv zeta.
  - exists []. cbn. rewrite app_nil_r, Nat.sub_diag. auto.
  - rewrite mcp_run_cons_effects. cbn [filter].
    destruct (registered mcp i); [|apply IH].
    destruct (call_tool_effects self i st) as [Ht Hs].
    destruct (call_tool w self i st) as [[out|e] st1]; cbn [snd] in *.
    + destruct (IH st1) as (new & Hn & H1 & H2 & H3).
      destruct Hs as [Hs | [r Hr]].
      * exists new. rewrite Hn, Hs. cbn [List.length]. repeat split; lia.
      * exists (r :: new). rewrite Hn, Hr, <- app_assoc.
        cbn [List.length]. repeat split; lia.
    + destruct Hs as [Hs | [r Hr]].
      * exists []. rewrite app_nil_r. cbn [List.length].
        repeat split; auto; lia.
      * exists [r]. cbn [List.length]. repeat split; auto; lia.
Qed.

(** X6: when the body is a non-empty mapping the query parameters are not
    signed: the headers do not depend on them.  When the body is the empty
    mapping it is the query parameters that are signed, as if there were
    no body. *)
Theorem body_shadows_params (self : GongClient) (method path : str)
        (st : effects) :
  (forall kv body params1 params2,
      map req_headers
          (issued st (snd (_request w self method path params1
                                    (Some (kv :: body)) st)))
      = map req_headers
            (issued st (snd (_request w self method path params2
                                      (Some (kv :: body)) st))))
  /\ (forall params,
         map req_headers
             (issued st (snd (_request w self method path params
                                       (Some []) st)))
         = map req_headers
               (issued st (snd (_request w self method path params
                                         None st)))).
Proof.
  split.
  - intros kv body params1 params2. rewrite !_request_unfold.
    change (or_else (Some (kv :: body)) params1) with (Some (kv :: body)).
    change (or_else (Some (kv :: body)) params2) with (Some (kv :: body)).
    destruct (encode_utf8 _) as [auth_bytes|e]; [|reflexivity].
    destruct (_generate_signature _ _ _ _ _) as [signature|e]; [|reflexivity].
    cbv zeta. cbn [snd]. rewrite !issued_one. reflexivity.
  - intros params. rewrite !_request_unfold.
    change (or_else (Some []) params) with params.
    change (or_else None params) with params.
    destruct (encode_utf8 _) as [auth_bytes|e]; [|reflexivity].
    destruct (_generate_signature _ _ _ _ _) as [signature|e]; [|reflexivity].
    cbv zeta. cbn [snd]. rewrite !issued_one. reflexivity.
Qed.
End Calls.

(** ** What the tools and the server let through *)

Lemma encode_utf8_no_base_exception (s : str) :
  no_base_exception (encode_utf8 s).
Proof.
  destruct (no_surrogates s) eqn:E.
  - rewrite (encode_utf8_ok _ E). exact I.
  - destruct (encode_from_error s E 0) as (e & He & Hcls).
    unfold encode_utf8. rewrite He. unfold no_base_exception,
      isinstance_Exception. rewrite Hcls. reflexivity.
Qed.

Lemma _generate_signature_no_base_exception (self : GongClient)
      (method path timestamp : str) (params : option dict) :
  no_base_exception (_generate_signature self method path timestamp params).
Proof.
  unfold _generate_signature.
  pose proof (encode_utf8_no_base_exception (access_secret self)) as H1.
  destruct (encode_utf8 (access_secret self)) as [key|e]; [|exact H1].
  cbn [rbind].
  pose proof (encode_utf8_no_base_exception
                (string_to_sign method path timestamp params)) as H2.
  destruct (encode_utf8 (string_to_sign _ _ _ _)) as [msg|e]; [|exact H2].
  cbn [rbind]. rewrite decode_b64encode. exact I.
Qed.

Section Server.
Variable w : world.

Lemma _request_no_base_exception (self : GongClient) (method path : str)
      (params data : option dict) (st : effects) :
  exceptions_only w ->
  no_base_exception (fst (_request w self method path params data st)).
Proof.
  intro Hw. rewrite _request_unfold.
  pose proof (encode_utf8_no_base_exception
                (access_key self ++ py ":" ++ access_secret self)) as H1.
  destruct (encode_utf8 _) as [auth_bytes|e]; [|exact H1].
  match goal with
  | |- context [_generate_signature ?a ?b ?c ?d ?e] =>
      pose proof (_generate_signature_no_base_exception a b c d e) as H2;
      destruct (_generate_signature a b c d e) as [signature|e']
  end; [|exact H2].
  cbv zeta. cbn [fst].
  match goal with
  | |- context [http w ?n ?r] =>
      destruct (Hw n r) as [H3 H4]; destruct (http w n r) as [resp|e']
  end; [|exact H3].
  cbn [rbind]. destruct (H4 resp eq_refl) as [H5 H6].
  destruct (raise_for_status resp) as [[]|e']; [|exact H5].
  exact H6.
Qed.

Lemma try_except_returns {A B} (body : M A) (f : A -> B) (h : exn -> B)
      (st : effects) :
  no_base_exception (fst (body st)) ->
  exists out,
    fst (try_except_Exception (x <~ body ;; ret (f x)) (fun e => ret (h e)) st)
    = Ok out.
Proof.
  unfold try_except_Exception, bind, ret.
  destruct (body st) as [[v|e] st']; cbn [fst no_base_exception].
  - eauto.
  - intros ->. cbn [fst]. eauto.
Qed.


Lemma call_tool_returns (self : GongClient) (i : invocation) (st : effects) :
  exceptions_only w -> exists out, fst (call_tool w self i st) = Ok out.
Proof.
  intro Hw. destruct i as [f t|ids];
    unfold call_tool, list_calls_tool, retrieve_transcripts_tool;
    apply try_except_returns;
    apply _request_no_base_exception, Hw.
Qed.


Lemma mcp_run_cons_result (self : GongClient) (mcp : FastMCP)
      (i : invocation) (rest : list invocation) (st : effects) :
  fst (mcp_run w self mcp (i :: rest) st)
  = if registered mcp i then
      match call_tool w self i st with
      | (Ok out, st1) =>
          match fst (mcp_run w self mcp rest st1) with
          | Ok outs => Ok (out :: outs)
          | Raise e => Raise e
          end
      | (Raise e, _) => Raise e
      end
    else fst (mcp_run w self mcp rest st).
Proof.
  cbn [mcp_run]. fold (registered mcp i).
  destruct (registered mcp i); [|reflexivity].
  unfold bind at 1. destruct (call_tool w self i st) as [[out|e] st1];
    [|reflexivity].
  unfold bind, ret.
  destruct (mcp_run w self mcp rest st1) as [[outs|e] st2]; reflexivity.
Qed.

(** X7: when [httpx] and the responses raise nothing but exceptions
    derived from [Exception], every invocation of a registered tool is
    answered with a text and the run does not stop: no failure of the
    remote end takes the server down. *)
Theorem server_answers_every_invocation (self : GongClient) (mcp : FastMCP)
        (invocations : list invocation) (st : effects) :
  exceptions_only w ->
  exists outs,
    fst (mcp_run w self mcp invocations st) = Ok outs
    /\ List.length outs
       = List.length (filter (registered mcp) invocations).
Proof.
  intro Hw. revert st.
  induction invocations as [|i rest IH]; intro st.
  - exists []. auto.
  - rewrite mcp_run_cons_result. cbn [filter].
    destruct (registered mcp i); [|apply IH].
    destruct (call_tool_returns self i st Hw) as [out Hout].
    destruct (call_tool w self i st) as [[out'|e] st1]; cbn [fst] in Hout;
      [|discriminate].
    destruct (IH st1) as (outs & Houts & Hlen). rewrite Houts.
    exists (out' :: outs). cbn [List.length]. auto.
Qed.



(** X9: the text a tool returns is ASCII, whatever the response or the
    message of the exception holds: [json.dumps] escapes the rest. *)
Theorem tool_output_is_ascii (self : GongClient) (i : invocation)
        (st : effects) (out : str) :
  (forall n r resp v,
      http w n r = Ok resp -> json resp = Ok v -> ascii_floats v = true) ->
  fst (call_tool w self i st) = Ok out ->
  is_ascii out = true.
Proof.
  intros Hw.
  assert (Hd : forall v, ascii_floats v = true ->
                         is_ascii (Json.dumps v (Some 2%nat) None) = true).
  { intros v Hv. unfold Json.dumps. cbn [option_map].
    apply _iterencode_ascii; auto. }
  assert (Hb : forall (body : M value),
             (forall v, fst (body st) = Ok v -> ascii_floats v = true) ->
             fst (try_except_Exception
                    (response <~ body ;;
                     ret (Json.dumps response (Some 2%nat) None))
                    (fun e =>
                       ret (Json.dumps (VDict [(py "error", VStr (exn_str e))])
                                       (Some 2%nat) None)) st) = Ok out ->
             is_ascii out = true).
  { intros body Hbody. unfold try_except_Exception, bind, ret.
    destruct (body st) as [[v|e] st']; cbn [fst] in *.
    - intro H. injection H as <-. apply Hd, Hbody. reflexivity.
    - destruct (isinstance_Exception e); cbn [fst]; [|discriminate].
      intro H. injection H as <-. apply Hd. reflexivity. }
  destruct i as [f t|ids];
    unfold call_tool, list_calls_tool, retrieve_transcripts_tool;
    apply Hb; intros v Hv; apply _request_Ok_inv in Hv;
    destruct Hv as (r & resp & _ & Hh & _ & Hj); eapply Hw; eauto.
Qed.

End Server.

Lemma server_answers_every_invocation_witness :
  exists outs,
    fst (mcp_run Sample.refusing Sample.client
                 (mk_FastMCP (py "gong-mcp") (py "0.1.0")
                             [py "list_calls"; py "retrieve_transcripts"])
                 [call_list_calls None None;
                  call_retrieve_transcripts [py "id1"]]
                 Sample.start) = Ok outs
    /\ List.length outs
       = List.length
           (filter (registered
                      (mk_FastMCP (py "gong-mcp") (py "0.1.0")
                                  [py "list_calls"; py "retrieve_transcripts"]))
                   [call_list_calls None None;
                    call_retrieve_transcripts [py "id1"]]).
Proof.
  apply (@server_answers_every_invocation Sample.refusing Sample.client
           (mk_FastMCP (py "gong-mcp") (py "0.1.0")
                       [py "list_calls"; py "retrieve_transcripts"])
           [call_list_calls None None; call_retrieve_transcripts [py "id1"]]
           Sample.start).
  intros n r. simpl. split; [exact I|].
  intros resp H. injection H as <-. simpl. split; [reflexivity | exact I].
Defined.

Lemma tool_output_is_ascii_witness :
  is_ascii (Json.dumps Sample.calls (Some 2%nat) None) = true.
Proof.
  apply (@tool_output_is_ascii Sample.answering Sample.client (call_list_calls None None)
           Sample.start).
  - intros n r resp v H1 H2. injection H1 as <-. injection H2 as <-.
    reflexivity.
  - vm_compute. reflexivity.
Defined.

(** ** Start of the process, continued *)

(** X10: the module body exits exactly when a credential is unset or
    empty — an empty value counts as missing; otherwise the client holds
    the two values as they are and the server has the two tools, in the
    order [list_calls], [retrieve_transcripts]. *)
Theorem module_body_outcome (dotenv : list (str * str)) (env : environ) :
  let env' := load_dotenv dotenv env in
  match os_getenv env' (py "GONG_ACCESS_KEY"),
        os_getenv env' (py "GONG_ACCESS_SECRET") with
  | Some (c :: key), Some (c' :: secret) =>
      module_body dotenv env
      = Loaded (mk_GongClient (c :: key) (c' :: secret))
               (mk_FastMCP (py "gong-mcp") (py "0.1.0")
                           [py "list_calls"; py "retrieve_transcripts"])
  | _, _ =>
      module_body dotenv env = Exited 1 [missing_credentials_message]
  end.
Proof.
  cbv zeta. unfold module_body.
  destruct (os_getenv _ (py "GONG_ACCESS_KEY")) as [[|c key]|];
    destruct (os_getenv _ (py "GONG_ACCESS_SECRET")) as [[|c' secret]|];
    reflexivity.
Qed.

(** ** The string to sign *)

Lemma LF_split (a b r1 r2 : str) :
  no_LF a = true -> no_LF b = true ->
  a ++ LF ++ r1 = b ++ LF ++ r2 -> a = b /\ r1 = r2.
Proof.
  revert b. induction a as [|x a IH]; intros [|y b] Ha Hb H;
    cbn in Ha, Hb, H.
  - injection H as ->. auto.
  - injection H as <- _. discriminate Hb.
  - injection H as -> _. discriminate Ha.
  - injection H as -> H.
    apply andb_true_iff in Ha. apply andb_true_iff in Hb.
    destruct (IH b) as [-> ->]; tauto.
Qed.

(** X11: the string to sign is read back in one way only: when neither
    the methods, nor the paths, nor the timestamps hold a line feed, two
    requests with the same string to sign have the same method, path,
    timestamp and payload string. *)
Theorem string_to_sign_unambiguous
        (method1 path1 timestamp1 method2 path2 timestamp2 : str)
        (params1 params2 : option dict) :
  no_LF method1 = true -> no_LF path1 = true -> no_LF timestamp1 = true ->
  no_LF method2 = true -> no_LF path2 = true -> no_LF timestamp2 = true ->
  string_to_sign method1 path1 timestamp1 params1
  = string_to_sign method2 path2 timestamp2 params2 ->
  method1 = method2 /\ path1 = path2 /\ timestamp1 = timestamp2
  /\ params_str params1 = params_str params2.
Proof.
  intros Hm1 Hp1 Ht1 Hm2 Hp2 Ht2 H. unfold string_to_sign in H.
  apply LF_split in H; [|assumption|assumption]. destruct H as [-> H].
  apply LF_split in H; [|assumption|assumption]. destruct H as [-> H].
  apply LF_split in H; [|assumption|assumption]. destruct H as [-> H].
  auto.
Qed.

Lemma string_to_sign_unambiguous_witness :
  py "GET" = py "GET" /\ py "/calls" = py "/calls"
  /\ Sample.march = Sample.march
  /\ params_str (Some []) = params_str None.
Proof.
  apply (@string_to_sign_unambiguous
           (py "GET") (py "/calls") Sample.march
           (py "GET") (py "/calls") Sample.march (Some []) None);
    reflexivity.
Defined.

(** ** The timestamp *)

Lemma digits_aux_length (fuel : nat) :
  forall (n : N) (acc : str) (w : nat),
    (n < 10 ^ N.of_nat (S w))%N ->
    (List.length (digits_aux 10 fuel n acc) <= S w + List.length acc)%nat.
Proof.
  induction fuel as [|k IH]; intros n acc w Hn; cbn [digits_aux].
  - lia.
  - destruct (n / 10 =? 0)%N eqn:E.
    + cbn [List.length]. lia.
    + apply N.eqb_neq in E. destruct w as [|w].
      * exfalso. apply E. apply N.div_small. exact Hn.
      * assert (Hd : (n / 10 < 10 ^ N.of_nat (S w))%N).
        { apply N.Div0.div_lt_upper_bound.
          rewrite <- N.pow_succ_r', <- Nat2N.inj_succ. exact Hn. }
        specialize (IH (n / 10)%N (digit_char (n mod 10) :: acc) w Hd).
        cbn [List.length] in IH. lia.
Qed.

Lemma fmt_d_length (w : nat) (n : N) :
  (n < 10 ^ N.of_nat (S w))%N -> List.length (fmt_d (S w) n) = S w.
Proof.
  intro Hn. unfold fmt_d, zfill, digits.
  pose proof (@digits_aux_length (S (N.to_nat (N.log2 n))) n [] w Hn) as H.
  cbn [List.length] in H.
  rewrite length_app, repeat_length. unfold str, codepoint in *. lia.
Qed.

Lemma digits_aux_timestamp_chars (fuel : nat) :
  forall (n : N) (acc : str),
    forallb timestamp_char acc = true ->
    forallb timestamp_char (digits_aux 10 fuel n acc) = true.
Proof.
  induction fuel as [|k IH]; intros n acc Hacc; cbn [digits_aux]; auto.
  assert (Hd : forallb timestamp_char (digit_char (n mod 10) :: acc) = true).
  { cbn [forallb]. rewrite Hacc, andb_true_r.
    assert (H : (n mod 10 < 10)%N) by (apply N.mod_lt; lia).
    revert H. generalize (n mod 10)%N. intros d H.
    unfold digit_char. destruct (N.ltb_spec d 10); [|lia].
    unfold timestamp_char.
    replace (48 <=? 48 + d)%N with true
      by (symmetry; apply N.leb_le; lia).
    replace (48 + d <=? 57)%N with true
      by (symmetry; apply N.leb_le; lia).
    reflexivity. }
  destruct (n / 10 =? 0)%N; auto.
Qed.

Lemma fmt_d_timestamp_chars (w : nat) (n : N) :
  forallb timestamp_char (fmt_d w n) = true.
Proof.
  unfold fmt_d, zfill. rewrite forallb_app. apply andb_true_iff. split.
  - induction (w - List.length (digits 10 n))%nat; [reflexivity|exact IHn0].
  - apply digits_aux_timestamp_chars. reflexivity.
Qed.

Lemma timestamp_chars_no_LF (s : str) :
  forallb timestamp_char s = true -> no_LF s = true.
Proof.
  unfold no_LF. rewrite !forallb_forall. intros H c Hc.
  specialize (H c Hc). destruct (N.eqb_spec c 10) as [->|]; [|reflexivity].
  discriminate H.
Qed.

(** X12: the timestamp of a request has a fixed shape: digits and the
    signs of [YYYY-MM-DDTHH:MM:SS] with [.ffffff] when the microseconds
    are not zero, then [Z]; so 20 or 27 characters, none of them a line
    feed. *)
Theorem timestamp_shape (dt : datetime) :
  valid_datetime dt ->
  let timestamp := isoformat dt ++ py "Z" in
  List.length timestamp
  = (if N.eqb (microsecond dt) 0 then 20 else 27)%nat
  /\ forallb timestamp_char timestamp = true
  /\ no_LF timestamp = true
  /\ nth 4 timestamp 0%N = 45%N
  /\ nth 10 timestamp 0%N = 84%N
  /\ last timestamp 0%N = 90%N.
Proof.
  intros (Hy & Hmo & Hd & Hh & Hmi & Hs & Hus) timestamp.
  assert (Hc : forallb timestamp_char timestamp = true).
  { unfold timestamp. rewrite forallb_app. apply andb_true_iff.
    split; [|reflexivity]. unfold isoformat.
    repeat (rewrite forallb_app; apply andb_true_iff; split;
            [first [apply fmt_d_timestamp_chars | reflexivity]|]).
    destruct (N.eqb (microsecond dt) 0); [reflexivity|].
    rewrite forallb_app, fmt_d_timestamp_chars. reflexivity. }
  assert (L4 : List.length (fmt_d 4 (year dt)) = 4%nat)
    by (apply fmt_d_length; simpl; lia).
  assert (L2 : forall n, (n <= 99)%N -> List.length (fmt_d 2 n) = 2%nat)
    by (intros n Hn; apply fmt_d_length; simpl; lia).
  assert (L6 : List.length (fmt_d 6 (microsecond dt)) = 6%nat)
    by (apply fmt_d_length; simpl; lia).
  split; [|split; [exact Hc|split; [apply timestamp_chars_no_LF, Hc|]]].
  - unfold timestamp, isoformat. rewrite !length_app, L4, !L2 by lia.
    destruct (N.eqb (microsecond dt) 0).
    + reflexivity.
    + rewrite length_app, L6. reflexivity.
  - unfold timestamp, isoformat.
    destruct (fmt_d 4 (year dt)) as [|y1 [|y2 [|y3 [|y4 [|y5 yr]]]]];
      try discriminate L4.
    pose proof (L2 (month dt)) as Lm. pose proof (L2 (day dt)) as Ld.
    destruct (fmt_d 2 (month dt)) as [|m1 [|m2 [|m3 mr]]];
      try (cbn in Lm; lia).
    destruct (fmt_d 2 (day dt)) as [|d1 [|d2 [|d3 dr]]];
      try (cbn in Ld; lia).
    repeat split.
    rewrite app_assoc. apply last_last.
Qed.

Lemma timestamp_shape_witness :
  let timestamp := isoformat (Sample.clock 5) ++ py "Z" in
  List.length timestamp
  = (if N.eqb (microsecond (Sample.clock 5)) 0 then 20 else 27)%nat
  /\ forallb timestamp_char timestamp = true
  /\ no_LF timestamp = true
  /\ nth 4 timestamp 0%N = 45%N
  /\ nth 10 timestamp 0%N = 84%N
  /\ last timestamp 0%N = 90%N.
Proof.
  apply (@timestamp_shape (Sample.clock 5)).
  unfold valid_datetime. simpl. lia.
Defined.

(** ** UTF-8: decoding what was encoded *)

Section Utf8RoundTrip.
Local Open Scope N_scope.

Lemma land_high_low (a k x : N) : x < 2 ^ k -> N.land (a * 2 ^ k) x = 0.
Proof.
  intro Hx. apply N.bits_inj_0. intro n. rewrite N.land_spec.
  destruct (N.lt_ge_cases n k) as [Hn | Hn].
  - rewrite N.mul_pow2_bits_low by exact Hn. reflexivity.
  - replace (N.testbit x n) with false; [apply andb_false_r|].
    symmetry. destruct (N.eq_dec x 0) as [-> | Hx0]; [apply N.bits_0|].
    apply N.bits_above_log2. apply N.log2_lt_pow2; [lia|].
    eapply N.lt_le_trans; [exact Hx|]. apply N.pow_le_mono_r; lia.
Qed.

Lemma lor_add (a k x : N) : x < 2 ^ k -> N.lor (a * 2 ^ k) x = a * 2 ^ k + x.
Proof.
  intro H. rewrite <- N.lxor_lor by (apply land_high_low, H).
  rewrite <- N.add_nocarry_lxor by (apply land_high_low, H). reflexivity.
Qed.

Lemma mod_add_small (q b x : N) : x < b -> (q * b + x) mod b = x.
Proof.
  intro H. rewrite N.add_comm, N.Div0.mod_add. apply N.mod_small, H.
Qed.

Lemma cont_byte (l : N) : l < 64 -> N.lor 0x80 l = 128 + l.
Proof.
  intro H. change (N.lor 0x80 l) with (N.lor (1 * 2 ^ 7) l).
  rewrite lor_add; [reflexivity|]. change (2 ^ 7) with 128. lia.
Qed.

Lemma lead2_byte (h : N) : h < 32 -> N.lor 0xC0 h = 192 + h.
Proof.
  intro H. change (N.lor 0xC0 h) with (N.lor (3 * 2 ^ 6) h).
  rewrite lor_add; [reflexivity|]. change (2 ^ 6) with 64. lia.
Qed.

Lemma lead3_byte (h : N) : h < 16 -> N.lor 0xE0 h = 224 + h.
Proof.
  intro H. change (N.lor 0xE0 h) with (N.lor (7 * 2 ^ 5) h).
  rewrite lor_add; [reflexivity|]. change (2 ^ 5) with 32. lia.
Qed.

Lemma lead4_byte (h : N) : h < 8 -> N.lor 0xF0 h = 240 + h.
Proof.
  intro H. change (N.lor 0xF0 h) with (N.lor (15 * 2 ^ 4) h).
  rewrite lor_add; [reflexivity|]. change (2 ^ 4) with 16. lia.
Qed.

Lemma low6_cont (l : N) : l < 64 -> low6 (128 + l) = l.
Proof.
  intro H. unfold low6. change 0x3F with (N.ones 6). rewrite N.land_ones.
  change (2 ^ 6) with 64. change (128 + l) with (2 * 64 + l).
  apply mod_add_small, H.
Qed.

Lemma mask2 (h : N) : h < 32 -> N.land (192 + h) 0x1F = h.
Proof.
  intro H. change 0x1F with (N.ones 5). rewrite N.land_ones.
  change (2 ^ 5) with 32. change (192 + h) with (6 * 32 + h).
  apply mod_add_small, H.
Qed.

Lemma mask3 (h : N) : h < 16 -> N.land (224 + h) 0x0F = h.
Proof.
  intro H. change 0x0F with (N.ones 4). rewrite N.land_ones.
  change (2 ^ 4) with 16. change (224 + h) with (14 * 16 + h).
  apply mod_add_small, H.
Qed.

Lemma mask4 (h : N) : h < 8 -> N.land (240 + h) 0x07 = h.
Proof.
  intro H. change 0x07 with (N.ones 3). rewrite N.land_ones.
  change (2 ^ 3) with 8. change (240 + h) with (30 * 8 + h).
  apply mod_add_small, H.
Qed.

Lemma shiftl_lor_add (a k x : N) :
  x < 2 ^ k -> N.lor (N.shiftl a k) x = a * 2 ^ k + x.
Proof. intro H. rewrite N.shiftl_mul_pow2. apply lor_add, H. Qed.

Lemma is_cont_byte (l : N) : l < 64 -> is_cont (128 + l) = true.
Proof.
  intro H. unfold is_cont. apply andb_true_iff.
  split; apply N.leb_le; lia.
Qed.

(** The six low bits of [c] and the rest. *)
Lemma split6 (c : N) :
  N.land c 0x3F = c mod 64 /\ N.shiftr c 6 = c / 64
  /\ c = 64 * (c / 64) + c mod 64 /\ c mod 64 < 64.
Proof.
  repeat split.
  - change 0x3F with (N.ones 6). apply N.land_ones.
  - apply N.shiftr_div_pow2.
  - apply N.div_mod'.
  - apply N.mod_lt. discriminate.
Qed.
End Utf8RoundTrip.

Section Utf8Chars.
Local Open Scope N_scope.

Lemma ok2_of3_byte (h m : N) :
  h < 16 -> m < 64 -> (h = 0 -> 32 <= m) -> (h = 13 -> m < 32) ->
  ok2_of3 (224 + h) (128 + m) = true.
Proof.
  intros Hh Hm H0 H13. unfold ok2_of3. rewrite is_cont_byte by exact Hm.
  destruct (N.ltb_spec (128 + m) 0xA0);
    [destruct (N.eqb_spec (224 + h) 0xE0) | destruct (N.eqb_spec (224 + h) 0xED)];
    try reflexivity; exfalso; lia.
Qed.

Lemma ok2_of4_byte (h m : N) :
  h < 8 -> m < 64 -> (h = 0 -> 16 <= m) -> (h = 4 -> m < 16) ->
  ok2_of4 (240 + h) (128 + m) = true.
Proof.
  intros Hh Hm H0 H4. unfold ok2_of4. rewrite is_cont_byte by exact Hm.
  destruct (N.ltb_spec (128 + m) 0x90);
    [destruct (N.eqb_spec (240 + h) 0xF0) | destruct (N.eqb_spec (240 + h) 0xF4)];
    try reflexivity; exfalso; lia.
Qed.

Ltac settle_ltb :=
  repeat match goal with
         | |- context [N.ltb ?a ?b] =>
             destruct (N.ltb_spec a b); try (exfalso; lia)
         end.

(** Decoding the bytes of one scalar value gives it back and goes on with
    the bytes that follow. *)
Lemma decode_utf8_char (c : codepoint) (pos : nat) (rest : bytes) :
  is_scalar c = true ->
  decode_from pos (utf8_char c ++ rest)
  = (s <- decode_from (List.length (utf8_char c) + pos) rest ;; Ok (c :: s)).
Proof.
  intro Hs. unfold is_scalar in Hs. apply andb_true_iff in Hs.
  destruct Hs as [Hmax Hsur]. apply N.leb_le in Hmax.
  assert (Hnot : ~ (0xD800 <= c <= 0xDFFF)).
  { intros [A B]. apply N.leb_le in A, B. unfold is_surrogate in Hsur.
    rewrite A, B in Hsur. discriminate. }
  clear Hsur. unfold utf8_char.
  destruct (N.ltb_spec c 0x80) as [H1|H1].
  { cbn [app List.length Nat.add decode_from].
    destruct (N.ltb_spec c 0x80); [reflexivity | lia]. }
  destruct (split6 c) as (El0 & Eq0 & Ec0 & Hl0).
  destruct (N.ltb_spec c 0x800) as [H2|H2].
  { rewrite El0, Eq0. revert El0 Eq0 Ec0 Hl0.
    generalize (c / 64), (c mod 64). intros q l _ _ Ec Hl.
    rewrite (@lead2_byte q), (@cont_byte l) by lia.
    cbn [app List.length Nat.add decode_from]. settle_ltb.
    rewrite is_cont_byte, mask2, low6_cont by lia.
    rewrite shiftl_lor_add by (change (2 ^ 6) with 64; lia).
    change (2 ^ 6) with 64. replace (q * 64 + l) with c by lia.
    reflexivity. }
  destruct (split6 (c / 64)) as (El1 & Eq1 & Ec1 & Hl1).
  destruct (N.ltb_spec c 0x10000) as [H3|H3].
  { replace (N.shiftr c 12) with (N.shiftr (N.shiftr c 6) 6)
      by (rewrite N.shiftr_shiftr; reflexivity).
    rewrite El0, Eq0, El1, Eq1. clear El0 Eq0 El1 Eq1.
    revert Ec0 Hl0 Ec1 Hl1.
    generalize (c / 64 / 64), (c / 64 mod 64), (c mod 64).
    generalize (c / 64). intros q1 h l1 l0 Ec0 Hl0 Ec1 Hl1.
    rewrite (@lead3_byte h), !cont_byte by lia.
    cbn [app List.length Nat.add decode_from]. settle_ltb.
    rewrite ok2_of3_byte, is_cont_byte by lia.
    rewrite mask3, !low6_cont by lia.
    rewrite (@shiftl_lor_add l1 6 l0) by (change (2 ^ 6) with 64; lia).
    rewrite shiftl_lor_add by (change (2 ^ 6) with 64; change (2 ^ 12) with 4096; lia).
    change (2 ^ 6) with 64. change (2 ^ 12) with 4096.
    replace (h * 4096 + (l1 * 64 + l0)) with c by lia.
    reflexivity. }
  destruct (split6 (c / 64 / 64)) as (El2 & Eq2 & Ec2 & Hl2).
  replace (N.shiftr c 18) with (N.shiftr (N.shiftr (N.shiftr c 6) 6) 6)
    by (rewrite !N.shiftr_shiftr; reflexivity).
  replace (N.shiftr c 12) with (N.shiftr (N.shiftr c 6) 6)
    by (rewrite N.shiftr_shiftr; reflexivity).
  rewrite El0, Eq0, El1, Eq1, El2, Eq2. clear El0 Eq0 El1 Eq1 El2 Eq2.
  revert Ec0 Hl0 Ec1 Hl1 Ec2 Hl2.
  generalize (c / 64 / 64 / 64), (c / 64 / 64 mod 64), (c / 64 mod 64),
    (c mod 64).
  generalize (c / 64 / 64). generalize (c / 64).
  intros q1 q2 h l2 l1 l0 Ec0 Hl0 Ec1 Hl1 Ec2 Hl2.
  rewrite (@lead4_byte h), !cont_byte by lia.
  cbn [app List.length Nat.add decode_from]. settle_ltb.
  rewrite ok2_of4_byte, !is_cont_byte by lia.
  rewrite mask4, !low6_cont by lia.
  rewrite (@shiftl_lor_add l1 6 l0) by (change (2 ^ 6) with 64; lia).
  rewrite (@shiftl_lor_add l2 12) by (change (2 ^ 6) with 64; change (2 ^ 12) with 4096; lia).
  rewrite shiftl_lor_add
    by (change (2 ^ 6) with 64; change (2 ^ 12) with 4096;
        change (2 ^ 18) with 262144; lia).
  change (2 ^ 6) with 64. change (2 ^ 12) with 4096.
  change (2 ^ 18) with 262144.
  replace (h * 262144 + (l2 * 4096 + (l1 * 64 + l0))) with c by lia.
  reflexivity.
Qed.
End Utf8Chars.

Lemma decode_encoded (s : str) :
  scalars s = true ->
  forall pos, decode_from pos (flat_map utf8_char s) = Ok s.
Proof.
  induction s as [|c s IH]; intros H pos; [reflexivity|].
  cbn [scalars forallb] in H. apply andb_true_iff in H. destruct H as [Hc Hs].
  cbn [flat_map]. rewrite decode_utf8_char by exact Hc.
  rewrite IH by exact Hs. reflexivity.
Qed.

Lemma scalars_no_surrogates (s : str) :
  scalars s = true -> no_surrogates s = true.
Proof.
  unfold scalars, no_surrogates. rewrite !forallb_forall. intros H c Hc.
  specialize (H c Hc). unfold is_scalar in H.
  apply andb_true_iff in H. apply H.
Qed.

(** X13: a string of Unicode scalar values (no surrogate, nothing above
    U+10FFFF) encodes to UTF-8 without error, and decoding the bytes gives
    the string back. *)
Theorem utf8_round_trip (s : str) :
  scalars s = true ->
  exists bs, encode_utf8 s = Ok bs /\ decode_utf8 bs = Ok s.
Proof.
  intro H. exists (flat_map utf8_char s). split.
  - apply encode_utf8_ok, scalars_no_surrogates, H.
  - apply decode_encoded, H.
Qed.

Lemma utf8_round_trip_witness :
  exists bs,
    encode_utf8 [0x41; 0xE9; 0x20AC; 0x1F600]%N = Ok bs
    /\ decode_utf8 bs = Ok [0x41; 0xE9; 0x20AC; 0x1F600]%N.
Proof.
  apply (@utf8_round_trip [0x41; 0xE9; 0x20AC; 0x1F600]%N).
  reflexivity.
Defined.

(** ** The text that is signed for retrieveTranscripts *)

Lemma transcript_payload (call_ids : list str) :
  params_str (Some (transcript_body call_ids)) = transcript_text call_ids.
Proof.
  unfold transcript_text.
  destruct call_ids as [|c ids]; [vm_compute; reflexivity|].
  unfold params_str, transcript_body.
  cbn [truthy_dict value_of_dict]. unfold Json.dumps.
  cbn [option_map Json._iterencode map str_join].
  unfold Json.separator, Json.newline_indent.
  rewrite !app_nil_r. rewrite map_map.
  cbn [Json._iterencode].
  change (map (fun x : str => Json.encode_basestring_ascii x) ids)
    with (map Json.encode_basestring_ascii ids).
  set (items := str_join (py ", ")
                  (Json.encode_basestring_ascii c
                   :: map Json.encode_basestring_ascii ids)).
  set (q1 := Json.encode_basestring_ascii (py "filter")).
  set (q2 := Json.encode_basestring_ascii (py "callIds")).
  set (q3 := Json.encode_basestring_ascii (py "includeEntities")).
  set (q4 := Json.encode_basestring_ascii (py "includeInteractionsSummary")).
  set (q5 := Json.encode_basestring_ascii (py "includeTrackers")).
  repeat (rewrite <- !app_assoc; cbn [app py map list_ascii_of_string]).
  reflexivity.
Qed.

Lemma list_calls_payload (from_date_time to_date_time : option str) :
  exists params : dict,
    (forall w self st,
        list_calls w self from_date_time to_date_time st
        = _request w self (py "GET") (py "/calls") (Some params) None st)
    /\ params_str (Some params)
       = list_calls_text from_date_time to_date_time.
Proof.
  destruct from_date_time as [[|c f]|], to_date_time as [[|c' t]|];
    match goal with
    | |- context [list_calls _ _ ?F ?T _] =>
        let p := constr:(let params : dict := [] in
                         let params :=
                           if truthy_str F
                           then dict_set params (py "fromDateTime")
                                         (value_of_str F)
                           else params in
                         if truthy_str T
                         then dict_set params (py "toDateTime")
                                       (value_of_str T)
                         else params) in
        let p' := eval vm_compute in p in
        exists p'
    end;
    (split; [intros; reflexivity|]);
    try reflexivity;
    unfold params_str, list_calls_text, member_text, Json.dumps;
    cbn [truthy_dict value_of_dict option_map Json._iterencode map str_join
         fst snd];
    unfold Json.separator, Json.newline_indent;
    repeat (rewrite <- ?app_assoc; cbn [app py map list_ascii_of_string]);
    reflexivity.
Qed.

Section SignedText.
Variable w : world.

(** The request [_request] sends carries the signature of the method, the
    path, the timestamp of this call and the body or the parameters. *)
Lemma _request_signature_header (self : GongClient) (method path : str)
      (params data : option dict) (st : effects) (r : request) :
  In r (issued st (snd (_request w self method path params data st))) ->
  let timestamp := isoformat (utcnow w (tick st)) ++ py "Z" in
  exists signature,
    _generate_signature self method path timestamp (or_else data params)
    = Ok signature
    /\ dict_get (req_headers r) (py "X-Gong-Signature") = Some signature
    /\ dict_get (req_headers r) (py "X-Gong-Timestamp") = Some timestamp.
Proof.
  rewrite _request_unfold.
  destruct (encode_utf8 _) as [auth_bytes|e].
  2:{ unfold issued. cbn [snd sent]. rewrite skipn_all. intros []. }
  destruct (_generate_signature _ _ _ _ _) as [signature|e] eqn:Hsig.
  2:{ unfold issued. cbn [snd sent]. rewrite skipn_all. intros []. }
  cbv zeta. cbn [snd]. rewrite issued_one. intros [<- | []].
  exists signature. split; [exact Hsig|]. split; reflexivity.
Qed.

(** X14: the request of [retrieve_transcripts(call_ids)] is signed over
    [POST], [/calls/transcript], its timestamp and the text
    [{"filter": {"callIds": [...], "includeEntities": true,
    "includeInteractionsSummary": true, "includeTrackers": true}}], the
    identifiers quoted and separated by a comma and a space, [[]] when
    there is none. *)
Theorem transcripts_signed_text (self : GongClient) (call_ids : list str)
        (st : effects) (r : request) :
  In r (issued st (snd (retrieve_transcripts w self call_ids st))) ->
  let timestamp := isoformat (utcnow w (tick st)) ++ py "Z" in
  exists signature,
    _generate_signature self (py "POST") (py "/calls/transcript") timestamp
                        (Some (transcript_body call_ids)) = Ok signature
    /\ string_to_sign (py "POST") (py "/calls/transcript") timestamp
                      (Some (transcript_body call_ids))
       = py "POST" ++ LF ++ py "/calls/transcript" ++ LF ++ timestamp ++ LF
            ++ transcript_text call_ids
    /\ dict_get (req_headers r) (py "X-Gong-Signature") = Some signature
    /\ dict_get (req_headers r) (py "X-Gong-Timestamp") = Some timestamp.
Proof.
  intros Hin timestamp.
  apply _request_signature_header in Hin.
  destruct Hin as (signature & Hsig & Hh & Ht).
  exists signature. repeat split; auto.
  unfold string_to_sign. rewrite transcript_payload. reflexivity.
Qed.

(** X15: the request of [list_calls] is signed over [GET], [/calls], its
    timestamp and the text [{"fromDateTime": "...", "toDateTime": "..."}]
    with the members of the arguments that are given and not empty, in
    this order; the text is empty when there is none. *)
Theorem list_calls_signed_text (self : GongClient)
        (from_date_time to_date_time : option str) (st : effects)
        (r : request) :
  In r (issued st
               (snd (list_calls w self from_date_time to_date_time st))) ->
  let timestamp := isoformat (utcnow w (tick st)) ++ py "Z" in
  exists params signature,
    _generate_signature self (py "GET") (py "/calls") timestamp (Some params)
    = Ok signature
    /\ string_to_sign (py "GET") (py "/calls") timestamp (Some params)
       = py "GET" ++ LF ++ py "/calls" ++ LF ++ timestamp ++ LF
            ++ list_calls_text from_date_time to_date_time
    /\ req_params r = Some params
    /\ dict_get (req_headers r) (py "X-Gong-Signature") = Some signature
    /\ dict_get (req_headers r) (py "X-Gong-Timestamp") = Some timestamp.
Proof.
  intros Hin timestamp.
  destruct (list_calls_payload from_date_time to_date_time)
    as (params & Hcall & Htext).
  rewrite Hcall in Hin.
  assert (Hp : req_params r = Some params).
  { destruct (_request_issued w self (py "GET") (py "/calls") (Some params)
                              None st)
      as [_ [Hs | (r' & Hr & _ & _ & Hp & _)]]; unfold issued in Hin.
    - rewrite Hs, skipn_all in Hin. destruct Hin.
    - rewrite Hr, skipn_app, skipn_all, Nat.sub_diag in Hin.
      destruct Hin as [<- | []]. exact Hp. }
  apply _request_signature_header in Hin.
  destruct Hin as (signature & Hsig & Hh & Ht).
  exists params, signature. repeat split; auto.
  unfold string_to_sign. rewrite Htext. reflexivity.
Qed.
End SignedText.

Lemma transcripts_signed_text_witness :
  let r := nth 0 (issued Sample.start
                         (snd (retrieve_transcripts
                                 Sample.answering Sample.client
                                 [py "id1"; py "id2"] Sample.start)))
               (mk_request [] [] None None []) in
  let timestamp := isoformat (utcnow Sample.answering 0) ++ py "Z" in
  exists signature,
    _generate_signature Sample.client (py "POST") (py "/calls/transcript")
                        timestamp
                        (Some (transcript_body [py "id1"; py "id2"]))
    = Ok signature
    /\ string_to_sign (py "POST") (py "/calls/transcript") timestamp
                      (Some (transcript_body [py "id1"; py "id2"]))
       = py "POST" ++ LF ++ py "/calls/transcript" ++ LF ++ timestamp ++ LF
            ++ transcript_text [py "id1"; py "id2"]
    /\ dict_get (req_headers r) (py "X-Gong-Signature") = Some signature
    /\ dict_get (req_headers r) (py "X-Gong-Timestamp") = Some timestamp.
Proof.
  intro r.
  apply (@transcripts_signed_text Sample.answering Sample.client
           [py "id1"; py "id2"] Sample.start r).
  vm_compute. left. reflexivity.
Defined.

Lemma list_calls_signed_text_witness :
  let r := nth 0 (issued Sample.start
                         (snd (list_calls Sample.answering Sample.client
                                          (Some Sample.march) None
                                          Sample.start)))
               (mk_request [] [] None None []) in
  let timestamp := isoformat (utcnow Sample.answering 0) ++ py "Z" in
  exists params signature,
    _generate_signature Sample.client (py "GET") (py "/calls") timestamp
                        (Some params) = Ok signature
    /\ string_to_sign (py "GET") (py "/calls") timestamp (Some params)
       = py "GET" ++ LF ++ py "/calls" ++ LF ++ timestamp ++ LF
            ++ list_calls_text (Some Sample.march) None
    /\ req_params r = Some params
    /\ dict_get (req_headers r) (py "X-Gong-Signature") = Some signature
    /\ dict_get (req_headers r) (py "X-Gong-Timestamp") = Some timestamp.
Proof.
  intro r.
  apply (@list_calls_signed_text Sample.answering Sample.client
           (Some Sample.march) None Sample.start r).
  vm_compute. left. reflexivity.
Defined.

(** X16: when [httpx] and the responses raise nothing but exceptions
    derived from [Exception], a tool never raises: it returns a text,
    also when the credentials cannot be encoded. *)
Theorem tool_always_answers (w : world) (self : GongClient) (i : invocation)
        (st : effects) :
  exceptions_only w ->
  exists out, fst (call_tool w self i st) = Ok out.
Proof.
  intro Hw. apply call_tool_returns, Hw.
Qed.

Lemma tool_always_answers_witness :
  exists out,
    fst (call_tool Sample.refusing (mk_GongClient (py "key") [0xDC80%N])
                   (call_list_calls None None) Sample.start) = Ok out.
Proof.
  apply (@tool_always_answers Sample.refusing
           (mk_GongClient (py "key") [0xDC80%N])
           (call_list_calls None None) Sample.start).
  intros n r. simpl. split; [exact I|].
  intros resp H. injection H as <-. simpl. split; [reflexivity | exact I].
Defined.
